(** * Speedml [Feature] component: a shallow embedding and its properties

    The Python class [speedml.feature.Feature] works on two pandas data
    frames, [Base.train] and [Base.test], kept as class attributes of
    [speedml.base.Base] together with the name of the target column.  Every
    method mutates these attributes in place.

    The embedding below follows the source method by method:
    - a cell of a data frame is a tagged value ([cell]);
    - a data frame is an index length with an ordered list of named columns;
    - the class attributes of [Base] are a record threaded through a small
      state-and-exception monad [M], in which the state reached when an
      exception is raised is kept (Python does not roll back);
    - floats are IEEE 754 binary64 values, on which the arithmetic of numpy
      (division, rounding to a number of decimals) is written out;
    - library routines whose behaviour is not decided by this repository
      ([numpy.percentile], [re.search], [str] on non text values, the
      imputer of [speedml.util]) are fields of the class [Externals]. *)

From Stdlib Require Import ZArith Lia Bool Ascii String List.
From Stdlib Require Import QArith Qcanon SpecFloat.
From stdpp Require Import base list strings gmap.

#[local] Set Warnings "-clear-no-such-hyp".

Local Open Scope Z_scope.

(** ** Numbers *)

(** [numpy.int64]: arithmetic wraps around silently. *)
Definition wrap64 (z : Z) : Z := (z + 2 ^ 63) mod 2 ^ 64 - 2 ^ 63.

(** [numpy.float64] is IEEE 754 binary64, modelled by the reference
    implementation of the standard library. *)
Definition f64 := spec_float.
Definition prec64 : Z := 53.
Definition emax64 : Z := 1024.

Definition f64add : f64 -> f64 -> f64 := SFadd prec64 emax64.
Definition f64sub : f64 -> f64 -> f64 := SFsub prec64 emax64.
Definition f64mul : f64 -> f64 -> f64 := SFmul prec64 emax64.
Definition f64div : f64 -> f64 -> f64 := SFdiv prec64 emax64.
Definition f64of_Z (z : Z) : f64 := binary_normalize prec64 emax64 z 0 false.

Definition f64zero : f64 := S754_zero false.
Definition f64nan : f64 := S754_nan.

Definition is_nan (x : f64) : bool :=
  match x with S754_nan => true | _ => false end.
Definition is_inf (x : f64) : bool :=
  match x with S754_infinity _ => true | _ => false end.

(** The number that a float stands for: a rational or one of the two
    infinities; the two zeros stand for the same number and NaN for none.
    Python compares and hashes numbers by this value, whether they are
    integers or floats. *)
Inductive numval : Type :=
| Fin (q : Qc)
| PInf
| NInf.

#[export] Instance numval_eq_dec : EqDecision numval.
Proof. solve_decision. Defined.

Definition Z_value (z : Z) : numval := Fin (Q2Qc (inject_Z z)).

Definition f64_value (x : f64) : option numval :=
  match x with
  | S754_zero _ => Some (Z_value 0)
  | S754_infinity s => Some (if s then NInf else PInf)
  | S754_nan => None
  | S754_finite s m e =>
      let z := if s then Z.neg m else Z.pos m in
      Some (Fin (Q2Qc (match e with
                       | Z.neg k => Qmake z (2 ^ k)
                       | _ => inject_Z (z * 2 ^ e)
                       end)))
  end.

(** ** Cells *)

Inductive cell : Type :=
| Int (z : Z)                  (* an integer *)
| Num (x : f64)                (* a float; NaN is the missing value *)
| Str (s : string)             (* text *)
| Lst (items : list string)    (* a list object *)
| Null.                        (* None *)

#[export] Instance f64_eq_dec : EqDecision f64.
Proof. unfold f64. solve_decision. Defined.

#[export] Instance cell_eq_dec : EqDecision cell.
Proof. solve_decision. Defined.

(** [pandas.isnull] *)
Definition isnull (c : cell) : bool :=
  match c with
  | Null => true
  | Num x => is_nan x
  | _ => false
  end.

(** What Python's [==] and [hash] see of a cell.  Numbers are keyed by
    their value, so that the integer 1 and the float 1.0 are one key, as are
    the two float zeros; NaN equals nothing, itself included, and has no
    key (a dictionary finds a NaN key only through the identity of the
    object, which the cells here do not carry). *)
Inductive pykey : Type :=
| KNum (v : numval)
| KStr (s : string)
| KLst (items : list string)
| KNone.

#[export] Instance pykey_eq_dec : EqDecision pykey.
Proof. solve_decision. Defined.

Definition key_of (c : cell) : option pykey :=
  match c with
  | Int z => Some (KNum (Z_value z))
  | Num x => KNum <$> f64_value x
  | Str s => Some (KStr s)
  | Lst l => Some (KLst l)
  | Null => Some KNone
  end.

(** Python's [==] on two cells. *)
Definition cell_eqb (a b : cell) : bool :=
  match key_of a, key_of b with
  | Some u, Some v => bool_decide (u = v)
  | _, _ => false
  end.

(** ** Exceptions and results *)

Inductive exn : Type :=
| KeyError | TypeError | AttributeError | ValueError
| IndexError | ZeroDivisionError | ReError.

Inductive result (A : Type) : Type :=
| Ok (a : A)
| Err (e : exn).
Arguments Ok {A} a.
Arguments Err {A} e.

Definition rbind {A B} (r : result A) (k : A -> result B) : result B :=
  match r with Ok a => k a | Err e => Err e end.

(** [Series.apply(f)]: the first exception raised by [f] propagates. *)
Fixpoint apply {A B} (f : A -> result B) (l : list A) : result (list B) :=
  match l with
  | [] => Ok []
  | x :: l' =>
      rbind (f x) (fun y => rbind (apply f l') (fun ys => Ok (y :: ys)))
  end.

(** Element-wise binary operation on two aligned series. *)
Fixpoint zip_apply {A B C} (f : A -> B -> result C)
    (l : list A) (k : list B) : result (list C) :=
  match l, k with
  | x :: l', y :: k' =>
      rbind (f x y) (fun z => rbind (zip_apply f l' k') (fun zs => Ok (z :: zs)))
  | _, _ => Ok []
  end.

(** ** Arithmetic on cells, as numpy and Python perform it *)

Definition to_float (c : cell) : option f64 :=
  match c with
  | Int z => Some (f64of_Z z)
  | Num x => Some x
  | _ => None
  end.

Definition float_op (op : f64 -> f64 -> f64) (a b : cell) : result cell :=
  match to_float a, to_float b with
  | Some x, Some y => Ok (Num (op x y))
  | _, _ => Err TypeError
  end.

Definition cell_add (a b : cell) : result cell :=
  match a, b with
  | Int x, Int y => Ok (Int (wrap64 (x + y)))
  | Str s, Str t => Ok (Str (s ++ t))
  | Lst l, Lst k => Ok (Lst (l ++ k))
  | _, _ => float_op f64add a b
  end.

Definition cell_sub (a b : cell) : result cell :=
  match a, b with
  | Int x, Int y => Ok (Int (wrap64 (x - y)))
  | _, _ => float_op f64sub a b
  end.

Fixpoint repeat_string (n : nat) (s : string) : string :=
  match n with O => EmptyString | S n' => (s ++ repeat_string n' s)%string end.

Definition cell_mul (a b : cell) : result cell :=
  match a, b with
  | Int x, Int y => Ok (Int (wrap64 (x * y)))
  | Str s, Int n | Int n, Str s => Ok (Str (repeat_string (Z.to_nat n) s))
  | Lst l, Int n | Int n, Lst l => Ok (Lst (concat (replicate (Z.to_nat n) l)))
  | _, _ => float_op f64mul a b
  end.

(** True division ([from __future__ import division]): integers are
    converted to floats first, and a zero divisor raises nothing. *)
Definition cell_div (a b : cell) : result cell := float_op f64div a b.

(** ** [numpy.round], to which [round(series, precision)] comes down *)

(** [power_of_ten(n)] of numpy: a table up to [1e8], and beyond it [1e9]
    multiplied by ten again and again, in floating point. *)
Definition power_of_ten (n : nat) : f64 :=
  if (n <? 9)%nat then f64of_Z (10 ^ Z.of_nat n)
  else Nat.iter (n - 9) (fun x => f64mul x (f64of_Z 10)) (f64of_Z (10 ^ 9)).

(** [rint]: the nearest integer, a tie going to the even one; the sign is
    kept, also that of a zero result. *)
Definition rint (x : f64) : f64 :=
  match x with
  | S754_finite s m (Z.neg k) =>
      let q := Z.pos m / 2 ^ Z.pos k in
      let r := Z.pos m mod 2 ^ Z.pos k in
      let half := 2 ^ (Z.pos k - 1) in
      let n := if r <? half then q
               else if half <? r then q + 1
               else if Z.even q then q else q + 1 in
      if n =? 0 then S754_zero s
      else binary_normalize prec64 emax64 (if s then - n else n) 0 false
  | _ => x
  end.

(** Rounding a float to [decimals] places: scale by the power of ten,
    round to an integer, scale back; for a negative number of places the
    division comes first. *)
Definition round_f64 (x : f64) (decimals : Z) : f64 :=
  let p := power_of_ten (Z.to_nat (Z.abs decimals)) in
  if decimals =? 0 then rint x
  else if 0 <? decimals then f64div (rint (f64mul x p)) p
  else f64mul (rint (f64div x p)) p.

(** The C cast of a double to a 64-bit integer drops the fractional part;
    for a value that does not fit, an infinity or NaN, x86-64 gives the
    smallest integer. *)
Definition f64_to_int64 (x : f64) : Z :=
  match x with
  | S754_zero _ => 0
  | S754_finite s m e =>
      let a := match e with
               | Z.neg k => Z.pos m / 2 ^ Z.pos k
               | _ => Z.pos m * 2 ^ e
               end in
      let z := if s then - a else a in
      if (- 2 ^ 63 <=? z) && (z <? 2 ^ 63) then z else - 2 ^ 63
  | _ => - 2 ^ 63
  end.

(** [numpy.round] on one cell.  An integer is returned as it is for a
    number of places that is not negative; for a negative one it is rounded
    as a float and cast back.  Text, lists and [None] make an object
    column, which cannot be rounded. *)
Definition np_round (c : cell) (decimals : Z) : result cell :=
  match c with
  | Int z =>
      if 0 <=? decimals then Ok (Int z)
      else Ok (Int (f64_to_int64 (round_f64 (f64of_Z z) decimals)))
  | Num x => Ok (Num (round_f64 x decimals))
  | _ => Err TypeError
  end.

(** ** Data frames *)

(** A [pandas.DataFrame]: the length of its index and its columns, in
    order.  In a well-formed frame every column has [nrows] cells and no
    name occurs twice. *)
Record DataFrame : Type := mkFrame {
  nrows : nat;
  cols : list (string * list cell)
}.

Definition columns (df : DataFrame) : list string := (cols df).*1.
Definition colset (df : DataFrame) : gset string := list_to_set (columns df).
Definition ncols (df : DataFrame) : nat := length (cols df).

Definition wf_frame (df : DataFrame) : Prop :=
  NoDup (columns df) /\ Forall (fun c => length c.2 = nrows df) (cols df).

Fixpoint lookup_col (a : string) (cs : list (string * list cell))
    : option (list cell) :=
  match cs with
  | [] => None
  | (n, v) :: cs' => if decide (n = a) then Some v else lookup_col a cs'
  end.

Fixpoint store_col (a : string) (v : list cell)
    (cs : list (string * list cell)) : list (string * list cell) :=
  match cs with
  | [] => [(a, v)]
  | (n, w) :: cs' =>
      if decide (n = a) then (n, v) :: cs' else (n, w) :: store_col a v cs'
  end.

(** [df[a]] *)
Definition getitem (df : DataFrame) (a : string) : result (list cell) :=
  match lookup_col a (cols df) with
  | Some v => Ok v
  | None => Err KeyError
  end.

(** [df[a] = series]: an existing column is overwritten in place, a new one
    is added last. *)
Definition setitem (df : DataFrame) (a : string) (v : list cell) : DataFrame :=
  mkFrame (nrows df) (store_col a v (cols df)).

(** [df[a] = scalar] *)
Definition setitem_scalar (df : DataFrame) (a : string) (c : cell) : DataFrame :=
  setitem df a (replicate (nrows df) c).

(** [df.drop(features, axis=1)]: every label has to name a column. *)
Definition frame_drop (features : list string) (df : DataFrame)
    : result DataFrame :=
  if forallb (fun f => bool_decide (f ∈ columns df)) features
  then Ok (mkFrame (nrows df)
             (filter (fun c => c.1 ∉ features) (cols df)))
  else Err KeyError.

(** [df1.append(df2)]: the rows of [df2] after those of [df1], over the
    union of the columns; a cell of a column that a frame lacks is NaN.
    The columns of [df1] come first here; no method below depends on the
    order in which [append] leaves the columns. *)
Definition frame_append (df1 df2 : DataFrame) : DataFrame :=
  let nan1 := replicate (nrows df1) (Num f64nan) in
  let nan2 := replicate (nrows df2) (Num f64nan) in
  mkFrame (nrows df1 + nrows df2)
    (map (fun c => (c.1, c.2 ++ default nan2 (lookup_col c.1 (cols df2))))
         (cols df1)
     ++ map (fun c => (c.1, nan1 ++ c.2))
         (filter (fun c => c.1 ∉ columns df1) (cols df2))).

(** [df[0:n]] and [df[n::]] *)
Definition rows_upto (n : nat) (df : DataFrame) : DataFrame :=
  mkFrame (Nat.min n (nrows df)) (map (fun c => (c.1, take n c.2)) (cols df)).
Definition rows_from (n : nat) (df : DataFrame) : DataFrame :=
  mkFrame (nrows df - n) (map (fun c => (c.1, drop n c.2)) (cols df)).

(** [df.isnull().sum().sum()] *)
Definition count_null (df : DataFrame) : nat :=
  sum_list (map (fun c => length (filter (fun x => isnull x = true) c.2))
                (cols df)).

(** [series.fillna(v)] *)
Definition series_fillna (v : cell) (s : list cell) : list cell :=
  map (fun x => if isnull x then v else x) s.

(** Does the cell [x] match [m], one of the values to replace?  pandas
    builds the mask of [replace] from [series == m] for a value [m] that is
    not missing, and from [isnull(series)] for one that is (NaN or None). *)
Definition value_matches (x m : cell) : bool :=
  if isnull m then isnull x else cell_eqb x m.

(** [series.replace(values, v)]; the new value is stored as it is given
    (pandas converts it to the type of the column where it can). *)
Definition series_replace (values : list cell) (v : cell) (s : list cell)
    : list cell :=
  map (fun x => if existsb (value_matches x) values then v else x) s.

(** ** The shared state and the monad of the methods *)

(** A line printed by [outliers_fix]: the two arguments of its format
    string, the number of changed rows and their percentage. *)
Record report : Type := mkReport { changed : nat; percent : f64 }.

(** The class attributes of [speedml.base.Base] that [Feature] reads and
    writes.  [Base.data_n] is the hook that refreshes the numeric views of
    the two frames; its body is not part of this component, so the state
    records how many times it has been invoked. *)
Record Base : Type := mkBase {
  train : DataFrame;
  test : DataFrame;
  target : string;
  data_n_calls : nat;
  stdout : list report
}.

Definition M (A : Type) : Type := Base -> result A * Base.

Definition ret {A} (a : A) : M A := fun st => (Ok a, st).
Definition raise {A} (e : exn) : M A := fun st => (Err e, st).
Definition bind {A B} (m : M A) (k : A -> M B) : M B :=
  fun st => match m st with
            | (Ok a, st') => k a st'
            | (Err e, st') => (Err e, st')
            end.
Definition lift {A} (r : result A) : M A := fun st => (r, st).

Declare Scope feature_scope.
Delimit Scope feature_scope with feature.
Notation "x <- m ;; k" := (bind m (fun x => k))
  (at level 100, m at next level, right associativity) : feature_scope.
Notation "m ;;; k" := (bind m (fun _ => k))
  (at level 100, right associativity) : feature_scope.
Local Open Scope feature_scope.

Definition get_train : M DataFrame := fun st => (Ok (train st), st).
Definition get_test : M DataFrame := fun st => (Ok (test st), st).
Definition get_target : M string := fun st => (Ok (target st), st).
Definition set_train (df : DataFrame) : M unit :=
  fun st => (Ok tt, mkBase df (test st) (target st) (data_n_calls st) (stdout st)).
Definition set_test (df : DataFrame) : M unit :=
  fun st => (Ok tt, mkBase (train st) df (target st) (data_n_calls st) (stdout st)).
Definition data_n : M unit :=
  fun st => (Ok tt, mkBase (train st) (test st) (target st)
                      (S (data_n_calls st)) (stdout st)).
Definition print (r : report) : M unit :=
  fun st => (Ok tt, mkBase (train st) (test st) (target st)
                      (data_n_calls st) (stdout st ++ [r])).

(** ** Library routines outside the repository *)

Class Externals : Type := {
  (** [numpy.percentile(values, q)] *)
  np_percentile : list cell -> cell -> result f64;
  (** [re.search(regex, text)]: [Ok None] when there is no match,
      [Ok (Some g)] when there is one and [g] is its [group(1)]. *)
  re_search : string -> string -> result (option cell);
  (** [str(v)] for a value that is not text *)
  py_str : cell -> string;
  (** the value by which the imputer replaces the missing cells of a
      column, see [DataFrameImputer_fit_transform] *)
  imputer_fill : list cell -> cell
}.

(** ** [Series.value_counts], used by [density] *)

Fixpoint count_add (x : cell) (vc : list (cell * nat)) : list (cell * nat) :=
  match vc with
  | [] => [(x, 1%nat)]
  | (k, n) :: vc' =>
      if cell_eqb k x then (k, S n) :: vc' else (k, n) :: count_add x vc'
  end.

(** The number of occurrences of each distinct value, missing values left
    out ([dropna=True]).  pandas orders the entries by decreasing count;
    [density] only looks entries up and takes their minimum, so they are
    kept here in the order in which [count_add] leaves them. *)
Fixpoint count_values (s : list cell) : list (cell * nat) :=
  match s with
  | [] => []
  | x :: s' =>
      if isnull x then count_values s' else count_add x (count_values s')
  end.

Definition is_list (c : cell) : bool :=
  match c with Lst _ => true | _ => false end.

(** A list is not hashable. *)
Definition value_counts (s : list cell) : result (list (cell * nat)) :=
  if existsb is_list s then Err TypeError else Ok (count_values s).

(** [dict.get(x)] on the dictionary made by [to_dict] *)
Fixpoint dict_get (x : cell) (d : list (cell * nat)) : option nat :=
  match d with
  | [] => None
  | (k, n) :: d' => if cell_eqb k x then Some n else dict_get x d'
  end.

(** [vals.min()]: NaN for an empty series *)
Definition counts_min (vc : list (cell * nat)) : cell :=
  match vc with
  | [] => Num f64nan
  | (_, n) :: vc' => Int (Z.of_nat (foldr (fun p m => Nat.min p.2 m) n vc'))
  end.

(** The body of the lambda of [density]: [dvals.get(x, vals.min())]. *)
Definition density_of (vc : list (cell * nat)) (x : cell) : result cell :=
  if is_list x then Err TypeError
  else Ok (match dict_get x vc with
           | Some n => Int (Z.of_nat n)
           | None => counts_min vc
           end).

(** ** [LabelEncoder.fit_transform], used by [labels] *)

Section Unique.
Context {A : Type} (cmp : A -> A -> comparison).

Fixpoint insert_sorted (x : A) (l : list A) : list A :=
  match l with
  | [] => [x]
  | y :: l' =>
      match cmp x y with
      | Gt => y :: insert_sorted x l'
      | _ => x :: l
      end
  end.

Definition sort (l : list A) : list A := foldr insert_sorted [] l.

Fixpoint uniq_adjacent (l : list A) : list A :=
  match l with
  | [] => []
  | x :: l' =>
      match l' with
      | y :: _ =>
          match cmp x y with
          | Eq => uniq_adjacent l'
          | _ => x :: uniq_adjacent l'
          end
      | [] => [x]
      end
  end.

(** [numpy.unique]: the distinct values, sorted *)
Definition np_unique (l : list A) : list A := uniq_adjacent (sort l).

(** the position of [x] in the array of classes *)
Fixpoint index_of (x : A) (classes : list A) : nat :=
  match classes with
  | [] => O
  | c :: classes' =>
      match cmp x c with
      | Eq => O
      | _ => S (index_of x classes')
      end
  end.

(** [classes, y = np.unique(y, return_inverse=True)] *)
Definition encode (l : list A) : list nat :=
  map (fun x => index_of x (np_unique l)) l.
End Unique.

(** What the encoder tells apart in a column: a number by its value, a
    text, [None], and NaN. *)
Inductive label : Type :=
| LNum (v : numval)
| LStr (s : string)
| LNone
| LNaN.

(** A list object cannot be put in the set that the encoder builds. *)
Definition label_of (c : cell) : option label :=
  match c with
  | Int z => Some (LNum (Z_value z))
  | Num x => Some (match f64_value x with Some v => LNum v | None => LNaN end)
  | Str s => Some (LStr s)
  | Lst _ => None
  | Null => Some LNone
  end.

Definition numval_compare (u v : numval) : comparison :=
  match u, v with
  | NInf, NInf => Eq
  | NInf, _ => Lt
  | _, NInf => Gt
  | PInf, PInf => Eq
  | PInf, _ => Gt
  | _, PInf => Lt
  | Fin p, Fin q => Qccompare p q
  end.

(** The order of the classes: numbers by value and texts by code points,
    then [None], then NaN.  Numbers are never ordered against texts, see
    [fit_transform]. *)
Definition label_compare (a b : label) : comparison :=
  match a, b with
  | LNum u, LNum v => numval_compare u v
  | LStr s, LStr t => String.compare s t
  | LNone, LNone => Eq
  | LNaN, LNaN => Eq
  | LNum _, _ => Lt
  | _, LNum _ => Gt
  | LStr _, _ => Lt
  | _, LStr _ => Gt
  | LNone, _ => Lt
  | _, LNone => Gt
  end.

Definition is_number (l : label) : bool :=
  match l with LNum _ => true | _ => false end.
Definition is_text (l : label) : bool :=
  match l with LStr _ => true | _ => false end.

(** [LabelEncoder().fit_transform(column)], as scikit-learn has it since
    version 0.24: the classes are the distinct values of the column that
    are not missing, sorted, followed by [None] and by NaN where the column
    has them, and the code of a cell is the position of its class.  Python
    refuses to sort numbers against texts, and a list object cannot be
    hashed: both raise [TypeError].  (Older versions sort the whole column
    with [numpy.unique], which keeps every NaN apart and cannot order a
    text against a missing value.) *)
Definition fit_transform (s : list cell) : result (list cell) :=
  match mapM label_of s with
  | None => Err TypeError
  | Some ls =>
      if existsb is_number ls && existsb is_text ls then Err TypeError
      else Ok (map (fun n => Int (Z.of_nat n)) (encode label_compare ls))
  end.

(** ** [str.split(" ")], used by [word_count] *)

(** The pieces of [s] between occurrences of the character [sep]; [cur] is
    the piece being read, reversed. *)
Fixpoint split_on (sep : ascii) (cur : string) (s : string) : list string :=
  match s with
  | EmptyString => [String.rev cur]
  | String c s' =>
      if Ascii.eqb c sep then String.rev cur :: split_on sep EmptyString s'
      else split_on sep (String c cur) s'
  end.

Definition py_split (sep : ascii) (s : string) : list string :=
  split_on sep EmptyString s.

(** Modelled from the spec: [speedml.util.DataFrameImputer], whose source
    is not part of this component.  In every column the missing cells are
    replaced by one value computed from that column (the median of a
    numeric column, the most frequent value of a text column); that value
    is [imputer_fill] of the column. *)
Definition DataFrameImputer_fit_transform `{Externals} (df : DataFrame)
    : DataFrame :=
  mkFrame (nrows df)
    (map (fun c => (c.1, series_fillna (imputer_fill c.2) c.2)) (cols df)).

(** ** The methods of [Feature] *)

(** Python's truth value of an optional argument: [None], zero, the empty
    string and the empty list are false. *)
Definition truthy (v : option cell) : bool :=
  match v with
  | None => false
  | Some (Int z) => negb (z =? 0)
  | Some (Num x) => negb (SFeqb x f64zero)
  | Some (Str s) => negb (String.eqb s "")
  | Some (Lst l) => negb (bool_decide (l = []))
  | Some Null => false
  end.

(** [series > v] and [series < v] for a float [v], cell by cell *)
Definition cell_gt (v : f64) (c : cell) : result bool :=
  match to_float c with
  | Some x => Ok (SFltb v x)
  | None => Err TypeError
  end.
Definition cell_lt (v : f64) (c : cell) : result bool :=
  match to_float c with
  | Some x => Ok (SFltb x v)
  | None => Err TypeError
  end.

(** [series.loc[mask] = v] *)
Definition assign_where (mask : list bool) (v : cell) (s : list cell)
    : list cell :=
  zip_with (fun (b : bool) x => if b then v else x) mask s.

(** [len(x)] *)
Definition py_len (c : cell) : result cell :=
  match c with
  | Str s => Ok (Int (Z.of_nat (String.length s)))
  | Lst l => Ok (Int (Z.of_nat (length l)))
  | _ => Err TypeError
  end.

(** [series.astype(str)] *)
Definition astype_str `{Externals} (c : cell) : string :=
  match c with Str s => s | _ => py_str c end.

(** [series.replace([np.inf, -np.inf], 0)] on one cell of a float column *)
Definition replace_inf (c : cell) : cell :=
  match c with
  | Num x => if is_inf x then Num f64zero else c
  | _ => c
  end.

Module Feature.
Section Methods.
Context `{Externals}.

(** The message returned by [drop] is built from two numbers, the count
    of dropped columns and the count of remaining ones; the method
    returns them. *)
Definition drop (features : list string) : M (Z * Z) :=
  tr <- get_train ;;
  let start := Z.of_nat (ncols tr) in
  tr' <- lift (frame_drop features tr) ;;
  set_train tr' ;;;
  te <- get_test ;;
  te' <- lift (frame_drop features te) ;;
  set_test te' ;;;
  data_n ;;;
  tr'' <- get_train ;;
  let end_ := Z.of_nat (ncols tr'') in
  ret (start - end_, end_).

(** The message returned by [impute] is built from the numbers of
    missing cells of train before and after. *)
Definition impute : M (nat * nat) :=
  tr <- get_train ;;
  let start := count_null tr in
  te <- get_test ;;
  tg <- get_target ;;
  set_test (setitem_scalar te tg (Int (-1))) ;;;
  tr <- get_train ;;
  te <- get_test ;;
  let combine := frame_append tr te in
  let combine := DataFrameImputer_fit_transform combine in
  tr <- get_train ;;
  set_train (rows_upto (nrows tr) combine) ;;;
  tr <- get_train ;;
  set_test (rows_from (nrows tr) combine) ;;;
  te <- get_test ;;
  te' <- lift (frame_drop [tg] te) ;;
  set_test te' ;;;
  data_n ;;;
  tr <- get_train ;;
  ret (start, count_null tr).

(** The entry of the dictionary [map_to_numbers] for the key [x]. *)
Fixpoint dict_lookup (map_to_numbers : list (cell * cell)) (x : cell)
    : option cell :=
  match map_to_numbers with
  | [] => None
  | (k, v) :: d => if cell_eqb k x then Some v else dict_lookup d x
  end.

(** [map_to_numbers[x]]: a list cannot be a key. *)
Definition dict_getitem (map_to_numbers : list (cell * cell)) (x : cell)
    : result cell :=
  if is_list x then Err TypeError
  else match dict_lookup map_to_numbers x with
       | Some v => Ok v
       | None => Err KeyError
       end.

Definition ordinal_to_numeric (a : string)
    (map_to_numbers : list (cell * cell)) : M unit :=
  tr <- get_train ;;
  s <- lift (getitem tr a) ;;
  s' <- lift (apply (dict_getitem map_to_numbers) s) ;;
  set_train (setitem tr a s') ;;;
  te <- get_test ;;
  s <- lift (getitem te a) ;;
  s' <- lift (apply (dict_getitem map_to_numbers) s) ;;
  set_test (setitem te a s') ;;;
  data_n.

Definition fillna (a : string) (new : cell) : M unit :=
  tr <- get_train ;;
  s <- lift (getitem tr a) ;;
  set_train (setitem tr a (series_fillna new s)) ;;;
  te <- get_test ;;
  s <- lift (getitem te a) ;;
  set_test (setitem te a (series_fillna new s)).

(** [match_] is the list of values to replace; a single value that is
    not [None] is the list of length one ([replace(a, None, new)], which
    pandas rejects, is not a call of this form). *)
Definition replace (a : string) (match_ : list cell) (new : cell) : M unit :=
  tr <- get_train ;;
  s <- lift (getitem tr a) ;;
  set_train (setitem tr a (series_replace match_ new s)) ;;;
  te <- get_test ;;
  s <- lift (getitem te a) ;;
  set_test (setitem te a (series_replace match_ new s)).

(** The line printed at the end of each branch of [outliers_fix];
    [change / Base.train.shape[0]] divides two Python integers. *)
Definition print_fixed (change : nat) : M unit :=
  tr <- get_train ;;
  if decide (nrows tr = O) then raise ZeroDivisionError
  else print (mkReport change
                (f64mul (f64div (f64of_Z (Z.of_nat change))
                                (f64of_Z (Z.of_nat (nrows tr))))
                        (f64of_Z 100))).

Definition fix_upper (a : string) (upper : cell) : M unit :=
  tr <- get_train ;;
  s <- lift (getitem tr a) ;;
  upper_value <- lift (np_percentile s upper) ;;
  mask <- lift (apply (cell_gt upper_value) s) ;;
  let change := length (filter (fun b => b = true) mask) in
  tr <- get_train ;;
  s <- lift (getitem tr a) ;;
  mask <- lift (apply (cell_gt upper_value) s) ;;
  set_train (setitem tr a (assign_where mask (Num upper_value) s)) ;;;
  data_n ;;;
  print_fixed change.

Definition fix_lower (a : string) (lower : cell) : M unit :=
  tr <- get_train ;;
  s <- lift (getitem tr a) ;;
  lower_value <- lift (np_percentile s lower) ;;
  mask <- lift (apply (cell_lt lower_value) s) ;;
  let change := length (filter (fun b => b = true) mask) in
  tr <- get_train ;;
  s <- lift (getitem tr a) ;;
  mask <- lift (apply (cell_lt lower_value) s) ;;
  set_train (setitem tr a (assign_where mask (Num lower_value) s)) ;;;
  data_n ;;;
  print_fixed change.

(** [if v: body] for an optional argument [v] *)
Definition when_truthy (v : option cell) (body : cell -> M unit) : M unit :=
  match v with
  | Some q => if truthy v then body q else ret tt
  | None => ret tt
  end.

Definition outliers_fix (a : string) (lower upper : option cell) : M unit :=
  when_truthy upper (fix_upper a) ;;;
  when_truthy lower (fix_lower a).

Definition density (a : string) : M unit :=
  tr <- get_train ;;
  s <- lift (getitem tr a) ;;
  vals <- lift (value_counts s) ;;
  let dvals := vals in
  tr <- get_train ;;
  s <- lift (getitem tr a) ;;
  d <- lift (apply (density_of dvals) s) ;;
  set_train (setitem tr (a ++ "_density") d) ;;;
  te <- get_test ;;
  s <- lift (getitem te a) ;;
  d <- lift (apply (density_of dvals) s) ;;
  set_test (setitem te (a ++ "_density") d) ;;;
  data_n.

(** [num] is a Python number. *)
Definition add (a : string) (num : cell) : M unit :=
  tr <- get_train ;;
  s <- lift (getitem tr a) ;;
  s' <- lift (apply (fun x => cell_add x num) s) ;;
  set_train (setitem tr a s') ;;;
  te <- get_test ;;
  s <- lift (getitem te a) ;;
  s' <- lift (apply (fun x => cell_add x num) s) ;;
  set_test (setitem te a s') ;;;
  data_n.

(** The common shape of [sum], [diff], [product]: [new] is computed cell
    by cell from [a] and [b], in train and then in test. *)
Definition binary (op : cell -> cell -> result cell) (new a b : string)
    : M unit :=
  tr <- get_train ;;
  sa <- lift (getitem tr a) ;;
  sb <- lift (getitem tr b) ;;
  s' <- lift (zip_apply op sa sb) ;;
  set_train (setitem tr new s') ;;;
  te <- get_test ;;
  sa <- lift (getitem te a) ;;
  sb <- lift (getitem te b) ;;
  s' <- lift (zip_apply op sa sb) ;;
  set_test (setitem te new s').

Definition sum (new a b : string) : M unit :=
  binary cell_add new a b ;;; data_n.

Definition diff (new a b : string) : M unit :=
  binary cell_sub new a b ;;; data_n.

Definition product (new a b : string) : M unit :=
  binary cell_mul new a b ;;; data_n.

Definition divide (new a b : string) : M unit :=
  binary cell_div new a b ;;;
  tr <- get_train ;;
  s <- lift (getitem tr new) ;;
  set_train (setitem tr new (map replace_inf s)) ;;;
  te <- get_test ;;
  s <- lift (getitem te new) ;;
  set_test (setitem te new (map replace_inf s)) ;;;
  data_n.

Definition round (new a : string) (precision : Z) : M unit :=
  tr <- get_train ;;
  s <- lift (getitem tr a) ;;
  s' <- lift (apply (fun x => np_round x precision) s) ;;
  set_train (setitem tr new s') ;;;
  te <- get_test ;;
  s <- lift (getitem te a) ;;
  s' <- lift (apply (fun x => np_round x precision) s) ;;
  set_test (setitem te new s') ;;;
  data_n.

Definition concat_cells (sep : string) (x y : cell) : result cell :=
  Ok (Str (astype_str x ++ sep ++ astype_str y)).

Definition concat (new a sep b : string) : M unit :=
  binary (concat_cells sep) new a b.

Definition list_len (new a : string) : M unit :=
  tr <- get_train ;;
  s <- lift (getitem tr a) ;;
  s' <- lift (apply py_len s) ;;
  set_train (setitem tr new s') ;;;
  te <- get_test ;;
  s <- lift (getitem te a) ;;
  s' <- lift (apply py_len s) ;;
  set_test (setitem te new s') ;;;
  data_n.

(** The lambda of [word_count]: [len(x.split(" "))]. *)
Definition count_words (x : cell) : result cell :=
  match x with
  | Str s => Ok (Int (Z.of_nat (length (py_split " " s))))
  | _ => Err AttributeError
  end.

Definition word_count (new a : string) : M unit :=
  tr <- get_train ;;
  s <- lift (getitem tr a) ;;
  s' <- lift (apply count_words s) ;;
  set_train (setitem tr new s') ;;;
  te <- get_test ;;
  s <- lift (getitem te a) ;;
  s' <- lift (apply count_words s) ;;
  set_test (setitem te new s') ;;;
  data_n.

Definition _regex_text (regex : string) (text : cell) : result cell :=
  match text with
  | Str t =>
      rbind (re_search regex t) (fun regex_search =>
      match regex_search with
      | Some group1 => Ok group1
      | None => Ok (Str "")
      end)
  | _ => Err TypeError
  end.

(** [new if new else a]: the empty string is false as well. *)
Definition new_or (new : option string) (a : string) : string :=
  match new with
  | Some n => if decide (n = "") then a else n
  | None => a
  end.

Definition regex_extract (a regex : string) (new : option string) : M unit :=
  tr <- get_train ;;
  s <- lift (getitem tr a) ;;
  s' <- lift (apply (_regex_text regex) s) ;;
  set_train (setitem tr (new_or new a) s') ;;;
  te <- get_test ;;
  s <- lift (getitem te a) ;;
  s' <- lift (apply (_regex_text regex) s) ;;
  set_test (setitem te (new_or new a) s').

(** The loop of [labels] over the frame [combine]. *)
Fixpoint encode_features (features : list string) (combine : DataFrame)
    : result DataFrame :=
  match features with
  | [] => Ok combine
  | feature :: rest =>
      rbind (getitem combine feature) (fun s =>
      rbind (fit_transform s) (fun s' =>
      encode_features rest (setitem combine feature s')))
  end.

Definition labels (features : list string) : M unit :=
  te <- get_test ;;
  tg <- get_target ;;
  set_test (setitem_scalar te tg (Int (-1))) ;;;
  tr <- get_train ;;
  te <- get_test ;;
  let combine := frame_append tr te in
  combine <- lift (encode_features features combine) ;;
  tr <- get_train ;;
  set_train (rows_upto (nrows tr) combine) ;;;
  tr <- get_train ;;
  set_test (rows_from (nrows tr) combine) ;;;
  te <- get_test ;;
  te' <- lift (frame_drop [tg] te) ;;
  set_test te' ;;;
  data_n.
End Methods.
End Feature.

(** ** The operations as data *)

(** One constructor per public method of [Feature], with its arguments. *)
Inductive op : Type :=
| Drop (features : list string)
| Impute
| OrdinalToNumeric (a : string) (map_to_numbers : list (cell * cell))
| Fillna (a : string) (new : cell)
| Replace (a : string) (match_ : list cell) (new : cell)
| OutliersFix (a : string) (lower upper : option cell)
| Density (a : string)
| Add (a : string) (num : cell)
| Sum (new a b : string)
| Diff (new a b : string)
| Product (new a b : string)
| Divide (new a b : string)
| Round (new a : string) (precision : Z)
| Concat (new a sep b : string)
| ListLen (new a : string)
| WordCount (new a : string)
| RegexExtract (a regex : string) (new : option string)
| Labels (features : list string).

(** Calling a method, its return value dropped. *)
Definition call `{Externals} (o : op) : M unit :=
  match o with
  | Drop features => _ <- Feature.drop features ;; ret tt
  | Impute => _ <- Feature.impute ;; ret tt
  | OrdinalToNumeric a m => Feature.ordinal_to_numeric a m
  | Fillna a new => Feature.fillna a new
  | Replace a m new => Feature.replace a m new
  | OutliersFix a lower upper => Feature.outliers_fix a lower upper
  | Density a => Feature.density a
  | Add a num => Feature.add a num
  | Sum new a b => Feature.sum new a b
  | Diff new a b => Feature.diff new a b
  | Product new a b => Feature.product new a b
  | Divide new a b => Feature.divide new a b
  | Round new a precision => Feature.round new a precision
  | Concat new a sep b => Feature.concat new a sep b
  | ListLen new a => Feature.list_len new a
  | WordCount new a => Feature.word_count new a
  | RegexExtract a regex new => Feature.regex_extract a regex new
  | Labels features => Feature.labels features
  end.

(** The name of the column that a column-creating method writes. *)
Definition created (o : op) : option string :=
  match o with
  | Density a => Some (a ++ "_density")%string
  | Sum new _ _ | Diff new _ _ | Product new _ _ | Divide new _ _
  | Round new _ _ | Concat new _ _ _ | ListLen new _ | WordCount new _ =>
      Some new
  | RegexExtract a _ new => Some (Feature.new_or new a)
  | _ => None
  end.

(** The methods that add, remove or rename columns. *)
Definition structural (o : op) : bool :=
  match o with
  | Drop _ | Impute | Labels _ | Density _
  | Sum _ _ _ | Diff _ _ _ | Product _ _ _ | Divide _ _ _
  | Round _ _ _ | Concat _ _ _ _ | ListLen _ _ | WordCount _ _ => true
  | RegexExtract _ _ (Some n) => negb (bool_decide (n = ""))
  | _ => false
  end.

(** Train and test have the same columns, except that train alone has the
    target column. *)
Definition synced (st : Base) : Prop :=
  target st ∈ colset (train st) /\
  colset (test st) = colset (train st) ∖ {[target st]}.

(** ** Definitions used in the statements and the examples *)

(** *** The refresh hook *)

(** The two methods that produce text and leave the hook alone. *)
Definition textual (o : op) : bool :=
  match o with
  | Concat _ _ _ _ | RegexExtract _ _ _ => true
  | _ => false
  end.

(** *** A small data set to run the methods on *)

(** Stand-ins for the library routines, enough to evaluate the methods on
    examples: the percentile of a column of integers by nearest rank, a
    regular expression that matches nothing. *)
Definition as_ints (s : list cell) : option (list Z) :=
  mapM (fun c => match c with Int z => Some z | _ => None end) s.

Definition nearest_rank (s : list cell) (q : cell) : result f64 :=
  match as_ints s, q with
  | Some (z :: zs), Int p =>
      let sorted := sort Z.compare (z :: zs) in
      let n := Z.of_nat (length sorted) in
      let k := Z.to_nat ((p * n + 99) / 100 - 1) in
      Ok (f64of_Z (nth k sorted z))
  | Some [], _ => Err IndexError
  | _, _ => Err TypeError
  end.

Definition sample_externals : Externals := {|
  np_percentile := nearest_rank;
  re_search := fun _ _ => Ok None;
  py_str := fun _ => "?"%string;
  imputer_fill := fun _ => Int 0
|}.

Definition people_train : DataFrame :=
  mkFrame 3 [("first", [Str "Jane"; Str "John"; Str "Ann"]);
             ("last", [Str "Doe"; Str "Roe"; Str "Lee"]);
             ("age", [Int 31; Int 47; Int 25]);
             ("kids", [Int 2; Int 0; Int 0]);
             ("survived", [Int 1; Int 0; Int 1])]%string.

Definition people_test : DataFrame :=
  mkFrame 2 [("first", [Str "Max"; Str "Jane"]);
             ("last", [Str "Poe"; Str "Doe"]);
             ("age", [Int 52; Int 0]);
             ("kids", [Int 4; Int 0])]%string.

Definition people : Base :=
  mkBase people_train people_test "survived" 0 [].

(** *** Train and test keep the same columns *)

#[export] Instance synced_dec (st : Base) : Decision (synced st).
Proof. unfold synced. apply _. Defined.

(** *** [word_count] *)

Fixpoint count_char (c : ascii) (s : string) : nat :=
  match s with
  | EmptyString => O
  | String d s' => (if Ascii.eqb d c then 1 else 0) + count_char c s'
  end.

(** The tokens of a text in the sense of the specification: the maximal
    runs of characters that are not white space. *)
Definition is_space (c : ascii) : bool :=
  let n := nat_of_ascii c in
  ((n =? 32) || ((9 <=? n) && (n <=? 13)))%nat.

Fixpoint tokens_from (cur : string) (s : string) : list string :=
  match s with
  | EmptyString =>
      match cur with EmptyString => [] | _ => [String.rev cur] end
  | String c s' =>
      if is_space c then
        match cur with
        | EmptyString => tokens_from EmptyString s'
        | _ => String.rev cur :: tokens_from EmptyString s'
        end
      else tokens_from (String c cur) s'
  end.

Definition whitespace_tokens (s : string) : list string :=
  tokens_from EmptyString s.

Definition notes : Base :=
  mkBase (mkFrame 3 [("text", [Str "a  b"; Str "one two"; Str ""]);
                     ("y", [Int 0; Int 1; Int 0])]%string)
         (mkFrame 2 [("text", [Str " hi"; Str "tab	sep"])]%string)
         "y" 0 [].

(** *** [divide] *)

(** The integer 0 and the two float zeros. *)
Definition is_zero (c : cell) : bool :=
  match c with
  | Int 0 => true
  | Num (S754_zero _) => true
  | _ => false
  end.

(** *** [outliers_fix] *)

(** Is the cell strictly above (below) the threshold? *)
Definition outside (above : bool) (t : f64) (x : cell) : bool :=
  match to_float x with
  | Some fx => if above then SFltb t fx else SFltb fx t
  | None => false
  end.

Definition clamp (above : bool) (t : f64) (x : cell) : cell :=
  if outside above t x then Num t else x.

Definition count_outside (above : bool) (t : f64) (s : list cell) : nat :=
  length (filter (fun x => outside above t x = true) s).

Definition percentage (change n : nat) : f64 :=
  f64mul (f64div (f64of_Z (Z.of_nat change)) (f64of_Z (Z.of_nat n)))
         (f64of_Z 100).

(** The effect of one branch of [outliers_fix] for the percentile [q]: the
    threshold is the percentile of the column [a] of train, the cells of
    that column beyond the threshold become the threshold, the hook is
    invoked, one line is printed, and test is left as it is. *)
Definition branch_effect `{Externals} (above : bool) (a : string) (q : cell)
    (st st' : Base) : Prop :=
  exists (s : list cell) (t : f64),
    getitem (train st) a = Ok s
    /\ np_percentile s q = Ok t
    /\ train st' = setitem (train st) a (map (clamp above t) s)
    /\ test st' = test st
    /\ target st' = target st
    /\ data_n_calls st' = S (data_n_calls st)
    /\ stdout st' = stdout st
         ++ [mkReport (count_outside above t s)
               (percentage (count_outside above t s) (nrows (train st)))].

(** *** [density] *)

(** The number of cells of a column that equal [v]. *)
Definition frequency (v : cell) (s : list cell) : nat :=
  length (filter (fun x => cell_eqb x v = true) s).

(** No two keys of the dictionary are equal. *)
Inductive distinct_keys : list (cell * nat) -> Prop :=
| distinct_nil : distinct_keys []
| distinct_cons k n vc :
    Forall (fun p => cell_eqb k p.1 = false) vc ->
    distinct_keys vc ->
    distinct_keys ((k, n) :: vc).

(** [m] is the smallest frequency of a value of the column that is not
    missing. *)
Definition is_min_frequency (s : list cell) (m : nat) : Prop :=
  (forall v, v ∈ s -> isnull v = false -> (m <= frequency v s)%nat)
  /\ (exists v, v ∈ s /\ isnull v = false /\ frequency v s = m).

(** The density of a row whose value is [x], given the column [s] of train
    and the value [low] for rows that have no frequency of their own. *)
Definition density_value (low : cell) (s : list cell) (x : cell) : cell :=
  if isnull x || bool_decide (frequency x s = O) then low
  else Int (Z.of_nat (frequency x s)).

Definition cabins : Base :=
  mkBase (mkFrame 6 [("cabin", [Str "A"; Str "A"; Str "A"; Str "B"; Str "B";
                                Num f64nan]);
                     ("y", [Int 0; Int 1; Int 0; Int 1; Int 1; Int 0])]%string)
         (mkFrame 3 [("cabin", [Str "A"; Str "C"; Num f64nan])]%string)
         "y" 0 [].

(** *** [labels] *)

Definition isnan (c : cell) : bool :=
  match c with Num x => is_nan x | _ => false end.

(** Two cells hold the same value: they are equal in the sense of Python,
    an integer and a float of the same value included, or both are NaN. *)
Definition same_value (x y : cell) : Prop :=
  cell_eqb x y = true \/ (isnan x = true /\ isnan y = true).

(** [codes] are integer codes of the cells of [raw]: cell by cell, and two
    cells have the same code exactly when they hold the same value. *)
Definition same_codes (raw codes : list cell) : Prop :=
  length codes = length raw
  /\ forall i j x y,
       raw !! i = Some x -> raw !! j = Some y ->
       exists m n,
         codes !! i = Some (Int m) /\ codes !! j = Some (Int n)
         /\ (m = n <-> same_value x y).

(** A data set whose columns hold floats beside integers, and missing
    values. *)
Definition mixed : Base :=
  mkBase (mkFrame 4 [("deck", [Str "B"; Num f64nan; Str "A"; Num f64nan]);
                     ("fare", [Num (f64of_Z 7); Int 9; Num f64nan; Int 7]);
                     ("y", [Int 0; Int 1; Int 0; Int 1])]%string)
         (mkFrame 3 [("deck", [Str "A"; Str "C"; Num f64nan]);
                     ("fare", [Int 7; Num f64nan; Num (f64of_Z 8)])]%string)
         "y" 0 [].

(** *** [ordinal_to_numeric] *)

(** [y] is the value of an entry of the mapping whose key equals [x]. *)
Definition entry_for (m : list (cell * cell)) (x y : cell) : Prop :=
  exists k, (k, y) ∈ m /\ cell_eqb k x = true.




(** No two keys of a dictionary are equal. *)
Inductive different_keys : list (cell * cell) -> Prop :=
| different_nil : different_keys []
| different_cons k v m :
    Forall (fun p => cell_eqb k p.1 = false) m ->
    different_keys m ->
    different_keys ((k, v) :: m).



(** *** [replace] *)



#[export] Instance wf_frame_dec (df : DataFrame) : Decision (wf_frame df).
Proof. unfold wf_frame. apply _. Defined.

(** *** Further definitions for the properties of the methods *)

(** The number of times a method invokes [data_n] when it completes. *)
Definition hook_calls (o : op) : nat :=
  match o with
  | Fillna _ _ | Replace _ _ _ | Concat _ _ _ _ | RegexExtract _ _ _ => 0
  | OutliersFix _ lower upper =>
      (if truthy upper then 1 else 0) + (if truthy lower then 1 else 0)
  | _ => 1
  end.

Definition is_outliers_fix (o : op) : bool :=
  match o with OutliersFix _ _ _ => true | _ => false end.

Definition attaches_target (o : op) : bool :=
  match o with Labels _ | Impute => true | _ => false end.

(** A data set with missing values. *)
Definition sparse : Base :=
  mkBase (mkFrame 3 [("deck", [Str "A"; Num f64nan; Null]);
                     ("fare", [Int 7; Int 7; Int 9]);
                     ("y", [Int 0; Int 1; Int 0])]%string)
         (mkFrame 2 [("deck", [Null; Str "B"]);
                     ("fare", [Int 9; Int 8])]%string)
         "y" 0 [].

(** An integer cell that fits in 64 bits. *)
Definition is_int64 (c : cell) : bool :=
  match c with
  | Int z => (- 2 ^ 63 <=? z) && (z <? 2 ^ 63)
  | _ => false
  end.

(** The call of [outliers_fix] with one bound: the upper one or the lower
    one. *)
Definition one_bound `{Externals} (above : bool) (a : string) (q : cell)
    : M unit :=
  if above then Feature.outliers_fix a None (Some q)
  else Feature.outliers_fix a (Some q) None.

(** The three methods that combine two columns by integer arithmetic. *)
Inductive arith : Type := Plus | Minus | Times.

Definition arith_call (k : arith) (new a b : string) : M unit :=
  match k with
  | Plus => Feature.sum new a b
  | Minus => Feature.diff new a b
  | Times => Feature.product new a b
  end.

Definition arith_Z (k : arith) (x y : Z) : Z :=
  match k with
  | Plus => x + y
  | Minus => x - y
  | Times => x * y
  end.

(** The one column that a method writes, for the methods that write one
    column. *)
Definition written (o : op) : option string :=
  match o with
  | OrdinalToNumeric a _ | Fillna a _ | Replace a _ _ | OutliersFix a _ _
  | Add a _ => Some a
  | Drop _ | Impute | Labels _ => None
  | _ => created o
  end.

(** ** Facts about frames *)

Lemma lookup_col_Some a cs v : lookup_col a cs = Some v -> a ∈ cs.*1.
Proof.
  induction cs as [|[n w] cs IH]; simpl; [done|].
  case_decide; set_solver.
Qed.

Lemma lookup_col_None a cs : lookup_col a cs = None -> a ∉ cs.*1.
Proof.
  induction cs as [|[n w] cs IH]; simpl; [set_solver|].
  case_decide; [done|]. set_solver.
Qed.

Lemma lookup_store_eq a v cs : lookup_col a (store_col a v cs) = Some v.
Proof.
  induction cs as [|[n w] cs IH]; simpl.
  - by rewrite decide_True.
  - case_decide; simpl; [by rewrite decide_True|by rewrite decide_False].
Qed.

Lemma lookup_store_ne a b v cs :
  a <> b -> lookup_col b (store_col a v cs) = lookup_col b cs.
Proof.
  intros Hne. induction cs as [|[n w] cs IH]; simpl.
  - by rewrite decide_False.
  - case_decide; simpl; subst.
    + by rewrite !decide_False.
    + by rewrite IH.
Qed.

Lemma store_col_names a v (cs : list (string * list cell)) :
  list_to_set (C := gset string) (store_col a v cs).*1
  = {[a]} ∪ list_to_set cs.*1.
Proof.
  induction cs as [|[n w] cs IH]; simpl; [set_solver|].
  case_decide; simpl in *; subst; set_solver.
Qed.

Lemma getitem_colset df a s : getitem df a = Ok s -> a ∈ colset df.
Proof.
  unfold getitem, colset, columns.
  destruct (lookup_col a (cols df)) eqn:E; [|done].
  intros _. apply lookup_col_Some in E. set_solver.
Qed.

Lemma colset_setitem df a v : colset (setitem df a v) = {[a]} ∪ colset df.
Proof. apply store_col_names. Qed.

Lemma getitem_setitem_eq df a v : getitem (setitem df a v) a = Ok v.
Proof. unfold getitem, setitem; simpl. by rewrite lookup_store_eq. Qed.

Lemma getitem_setitem_ne df a b v :
  a <> b -> getitem (setitem df a v) b = getitem df b.
Proof. intros. unfold getitem, setitem; simpl. by rewrite lookup_store_ne. Qed.

Lemma colset_rows_upto n df : colset (rows_upto n df) = colset df.
Proof.
  unfold colset, columns, rows_upto; simpl. f_equal.
  rewrite <- list_fmap_compose. done.
Qed.

Lemma colset_rows_from n df : colset (rows_from n df) = colset df.
Proof.
  unfold colset, columns, rows_from; simpl. f_equal.
  rewrite <- list_fmap_compose. done.
Qed.

Lemma colset_imputer `{Externals} df :
  colset (DataFrameImputer_fit_transform df) = colset df.
Proof.
  unfold colset, columns, DataFrameImputer_fit_transform; simpl. f_equal.
  rewrite <- list_fmap_compose. done.
Qed.

Lemma colset_frame_append df1 df2 :
  colset (frame_append df1 df2) = colset df1 ∪ colset df2.
Proof.
  unfold colset, columns, frame_append; simpl.
  rewrite fmap_app, list_to_set_app_L, <- !list_fmap_compose.
  apply set_eq. intros x.
  rewrite !elem_of_union, !elem_of_list_to_set, !list_elem_of_fmap.
  split.
  - intros [(c & -> & Hc)|(c & -> & Hc)]; [left; eauto|].
    apply list_elem_of_filter in Hc as [_ Hc]. right; eauto.
  - intros [(c & -> & Hc)|(c & -> & Hc)]; [left; eauto|].
    destruct (decide (c.1 ∈ (cols df1).*1)) as [Hin|Hnin].
    + apply list_elem_of_fmap in Hin as (c' & Heq & Hc'). left. exists c'.
      simpl. eauto.
    + right. exists c. split; [done|]. apply list_elem_of_filter. done.
Qed.

Lemma colset_frame_drop features df df' :
  frame_drop features df = Ok df' ->
  list_to_set features ⊆ colset df /\
  colset df' = colset df ∖ list_to_set features.
Proof.
  unfold frame_drop. destruct (forallb _ _) eqn:E; [|done].
  intros [= <-]. split.
  - rewrite forallb_forall in E. intros f Hf.
    apply elem_of_list_to_set in Hf.
    apply list_elem_of_In, E, bool_decide_eq_true in Hf.
    unfold colset. set_solver.
  - unfold colset, columns; simpl. apply set_eq. intros x.
    rewrite elem_of_difference, !elem_of_list_to_set, !list_elem_of_fmap.
    split.
    + intros (c & -> & Hc). apply list_elem_of_filter in Hc as [Hn Hc].
      split; eauto.
    + intros [(c & -> & Hc) Hn]. exists c. split; [done|].
      apply list_elem_of_filter. done.
Qed.

(** ** Tactics to run a method *)

(** Unfold the monad in [H] and split on every intermediate result. *)
Ltac step_M H :=
  cbv beta iota zeta delta
    [bind lift ret raise get_train get_test get_target
     set_train set_test data_n print] in H;
  cbn [train test target data_n_calls stdout] in H.

Ltac run_M H :=
  step_M H;
  repeat (match type of H with
          | context [match ?r with Ok _ => _ | Err _ => _ end] =>
              let E := fresh "E" in destruct r eqn:E; step_M H
          | context [if ?b then _ else _] => destruct b; step_M H
          end);
  try discriminate H.

(** ** Outlier bounds equal to zero *)

Lemma when_truthy_zero `{Externals} (body : cell -> M unit) :
  Feature.when_truthy (Some (Int 0)) body = ret tt
  /\ Feature.when_truthy (Some (Num f64zero)) body = ret tt
  /\ Feature.when_truthy None body = ret tt.
Proof. repeat split. Qed.

(** C10.  A percentile argument of [outliers_fix] equal to 0 (the integer
    or the float) is treated as an absent one: the call behaves exactly as
    the call with [None] for that bound, whatever the other bound is, so
    that branch computes no percentile, changes no table and prints
    nothing; with both bounds 0 the call returns with the state
    untouched. *)
Theorem outliers_fix_zero_is_absent `{Externals}
    (a : string) (other : option cell) (st : Base) :
  Feature.outliers_fix a other (Some (Int 0)) st
    = Feature.outliers_fix a other None st
  /\ Feature.outliers_fix a other (Some (Num f64zero)) st
    = Feature.outliers_fix a other None st
  /\ Feature.outliers_fix a (Some (Int 0)) other st
    = Feature.outliers_fix a None other st
  /\ Feature.outliers_fix a (Some (Num f64zero)) other st
    = Feature.outliers_fix a None other st
  /\ Feature.outliers_fix a (Some (Int 0)) (Some (Int 0)) st = (Ok tt, st)
  /\ Feature.outliers_fix a None None st = (Ok tt, st).
Proof. repeat split. Qed.

(** ** The refresh hook *)

Ltac unfold_methods H :=
  unfold call, Feature.drop, Feature.impute, Feature.ordinal_to_numeric,
    Feature.fillna, Feature.replace, Feature.density, Feature.add,
    Feature.sum, Feature.diff, Feature.product, Feature.divide,
    Feature.round, Feature.concat, Feature.list_len, Feature.word_count,
    Feature.regex_extract, Feature.labels, Feature.binary in H.

(** C9, as the code has it.  A method that adds or removes columns and
    completes has invoked [data_n] exactly once, except [concat] and
    [regex_extract], which never invoke it. *)
Theorem data_n_after_structural `{Externals} (o : op) (st st' : Base) :
  structural o = true ->
  call o st = (Ok tt, st') ->
  data_n_calls st' =
    if textual o then data_n_calls st else S (data_n_calls st).
Proof.
  intros Hs Hr.
  destruct o; simpl in Hs; try discriminate Hs;
    unfold_methods Hr; run_M Hr; by injection Hr as <-.
Qed.

Lemma textual_never_refreshes `{Externals} (o : op) (st : Base) :
  textual o = true -> data_n_calls (call o st).2 = data_n_calls st.
Proof.
  intros Ht. destruct (call o st) as [r st'] eqn:Hr.
  destruct o; simpl in Ht; try discriminate Ht;
    unfold_methods Hr; run_M Hr; by injection Hr as <- <-.
Qed.

(** C9 as stated fails: [concat] adds the column [full_name] to both
    frames and completes without invoking [data_n]. *)
Lemma concat_skips_data_n :
  let o := Concat "full_name" "first" " " "last" in
  let '(r, st') := @call sample_externals o people in
  structural o = true /\ r = Ok tt
  /\ getitem (train st') "full_name"
     = Ok [Str "Jane Doe"; Str "John Roe"; Str "Ann Lee"]
  /\ data_n_calls st' = data_n_calls people
  /\ data_n_calls st' <> S (data_n_calls people).
Proof. vm_compute. repeat split; discriminate. Qed.

Lemma data_n_after_structural_witness :
  let o := Sum "both" "age" "kids" in
  let st' := (@call sample_externals o people).2 in
  structural o = true /\ @call sample_externals o people = (Ok tt, st')
  /\ data_n_calls st' = 1%nat.
Proof.
  intros o st'.
  split; [reflexivity|]. split; [vm_compute; reflexivity|].
  apply (@data_n_after_structural sample_externals o people st');
    [reflexivity | vm_compute; reflexivity].
Defined.

(** ** Train and test keep the same columns *)

Lemma colset_encode_features features df df' :
  Feature.encode_features features df = Ok df' -> colset df' = colset df.
Proof.
  revert df. induction features as [|f features IH]; simpl; intros df.
  - by intros [= <-].
  - destruct (getitem df f) as [s|] eqn:Es; simpl; [|done].
    destruct (fit_transform s) as [s'|]; simpl; [|done].
    intros Hr. rewrite (IH _ Hr), colset_setitem.
    apply getitem_colset in Es. set_solver.
Qed.

(** Collect what the intermediate results say about column names. *)
Ltac colset_facts :=
  repeat match goal with
    | E : getitem _ _ = Ok _ |- _ => apply getitem_colset in E
    | E : frame_drop _ _ = Ok _ |- _ =>
        apply colset_frame_drop in E as [? ?]
    | E : Feature.encode_features _ _ = Ok _ |- _ =>
        apply colset_encode_features in E
    end.

Ltac colset_norm :=
  unfold setitem_scalar in *;
  repeat (rewrite ?colset_setitem, ?colset_rows_upto, ?colset_rows_from,
            ?colset_imputer, ?colset_frame_append in * ).

(** C1, as the code has it.  If train and test have the same columns apart
    from the target, which only train has, then after any method that
    completes they still do, provided the column the method creates is not
    named like the target. *)
Theorem columns_stay_synced `{Externals} (o : op) (st st' : Base) :
  synced st ->
  created o <> Some (target st) ->
  call o st = (Ok tt, st') ->
  synced st' /\ target st' = target st.
Proof.
  intros [Ht Hs] Hn Hr. unfold synced.
  destruct o; simpl in Hn;
    unfold_methods Hr;
    unfold Feature.outliers_fix, Feature.when_truthy, Feature.fix_upper,
      Feature.fix_lower, Feature.print_fixed in Hr;
    try (destruct lower; destruct upper);
    run_M Hr;
    injection Hr as <-; cbn [train test target];
    colset_facts; colset_norm;
    (split; [|reflexivity]);
    try (assert (Feature.new_or new a <> target st) by congruence);
    try (assert ((a ++ "_density")%string <> target st) by congruence);
    try (assert (new <> target st) by congruence);
    clear Hn; set_solver.
Qed.

(** C1 as stated fails: [sum] with the target's name as [new] completes and
    leaves the target column in test. *)
Lemma sum_into_target_breaks_sync :
  let o := Sum "survived" "age" "kids" in
  let '(r, st') := @call sample_externals o people in
  synced people /\ r = Ok tt
  /\ getitem (test st') "survived" = Ok [Int 56; Int 0]
  /\ target st' ∈ colset (test st')
  /\ ~ synced st'.
Proof.
  vm_compute call. cbn [train test target].
  split; [by apply (bool_decide_unpack _)|].
  split; [done|]. split; [done|].
  assert ("survived"%string ∈ colset
            (mkFrame 2 [("first", [Str "Max"; Str "Jane"]);
                        ("last", [Str "Poe"; Str "Doe"]);
                        ("age", [Int 52; Int 0]);
                        ("kids", [Int 4; Int 0]);
                        ("survived", [Int 56; Int 0])]%string)) as Hin
    by (by apply (bool_decide_unpack _)).
  split; [exact Hin|].
  intros [_ Heq]. cbn [train test target] in Heq. rewrite Heq in Hin.
  set_solver.
Qed.

Lemma columns_stay_synced_witness :
  let o := Sum "both" "age" "kids" in
  let st' := (@call sample_externals o people).2 in
  synced people /\ created o <> Some (target people)
  /\ @call sample_externals o people = (Ok tt, st')
  /\ synced st' /\ target st' = target people.
Proof.
  intros o st'.
  assert (synced people) as Hs by (by apply (bool_decide_unpack _)).
  assert (created o <> Some (target people)) as Hn by discriminate.
  assert (@call sample_externals o people = (Ok tt, st')) as Hr
    by (vm_compute; reflexivity).
  repeat (split; [assumption|]).
  exact (@columns_stay_synced sample_externals o people st' Hs Hn Hr).
Defined.

(** ** Equality of cells *)

Lemma cell_eqb_true (a b : cell) :
  cell_eqb a b = true <-> exists k, key_of a = Some k /\ key_of b = Some k.
Proof.
  unfold cell_eqb.
  destruct (key_of a) as [u|], (key_of b) as [v|];
    rewrite ?bool_decide_eq_true; naive_solver.
Qed.

Lemma key_of_present (a : cell) : isnull a = false -> is_Some (key_of a).
Proof.
  destruct a as [z|x|s|l|]; simpl; try done; eauto.
  destruct x; simpl; try done; eauto.
Qed.

Lemma cell_eqb_sym (a b : cell) : cell_eqb a b = true -> cell_eqb b a = true.
Proof. rewrite !cell_eqb_true. naive_solver. Qed.

Lemma cell_eqb_trans (a b c : cell) :
  cell_eqb a b = true -> cell_eqb b c = true -> cell_eqb a c = true.
Proof. rewrite !cell_eqb_true. naive_solver. Qed.

Lemma cell_eqb_refl (a : cell) : isnull a = false -> cell_eqb a a = true.
Proof.
  intros Ha. apply cell_eqb_true.
  destruct (key_of_present a Ha) as [k Hk]. eauto.
Qed.

Lemma cell_eqb_comm (a b : cell) : cell_eqb a b = cell_eqb b a.
Proof.
  destruct (cell_eqb a b) eqn:E1, (cell_eqb b a) eqn:E2; try done.
  - apply cell_eqb_sym in E1. congruence.
  - apply cell_eqb_sym in E2. congruence.
Qed.

(** A missing value equals nothing that is not missing. *)
Lemma cell_eqb_null (a b : cell) :
  isnull a = true -> isnull b = false -> cell_eqb a b = false.
Proof.
  intros Ha Hb. apply not_true_is_false. rewrite cell_eqb_true.
  intros (k & Hka & Hkb).
  destruct a as [z|x|s|l|]; simpl in *; try done.
  - destruct x; simpl in *; done.
  - destruct b as [z|x|s|l|]; simplify_eq/=.
    destruct (f64_value x); simplify_eq/=.
Qed.

(** ** [ordinal_to_numeric] *)

Ltac step_goal :=
  cbv beta iota zeta delta
    [bind lift ret raise get_train get_test get_target
     set_train set_test data_n print];
  cbn [train test target data_n_calls stdout].






(** With keys that are pairwise different, a value has one entry at
    most. *)
Lemma entry_for_unique m (x y y' : cell) :
  different_keys m -> entry_for m x y -> entry_for m x y' -> y = y'.
Proof.
  induction 1 as [|k v m Hk Hm IH]; intros (k1 & H1 & E1) (k2 & H2 & E2).
  - by apply elem_of_nil in H1.
  - rewrite Forall_forall in Hk.
    apply elem_of_cons in H1 as [[= -> ->]|H1];
      apply elem_of_cons in H2 as [[= -> ->]|H2]; [done| | |].
    + specialize (Hk _ H2). simpl in Hk.
      apply cell_eqb_sym in E2.
      rewrite (cell_eqb_trans _ _ _ E1 E2) in Hk. done.
    + specialize (Hk _ H1). simpl in Hk.
      apply cell_eqb_sym in E1.
      rewrite (cell_eqb_trans _ _ _ E2 E1) in Hk. done.
    + apply IH; [by exists k1|by exists k2].
Qed.








(** ** [word_count] *)

Lemma split_on_length sep cur s :
  length (split_on sep cur s) = S (count_char sep s).
Proof.
  revert cur. induction s as [|d s IH]; intros cur; simpl; [done|].
  destruct (Ascii.eqb d sep); simpl; by rewrite IH.
Qed.

(** What the lambda of [word_count] computes: one more than the number of
    space characters of the text. *)
Lemma count_words_spaces (s : string) :
  Feature.count_words (Str s)
  = Ok (Int (Z.of_nat (S (count_char " " s)))).
Proof.
  unfold Feature.count_words, py_split. by rewrite split_on_length.
Qed.

Lemma apply_lookup {A B} (f : A -> result B) (l : list A) r i x :
  apply f l = Ok r -> l !! i = Some x ->
  exists y, f x = Ok y /\ r !! i = Some y.
Proof.
  revert r i. induction l as [|x' l IH]; intros r i; [done|].
  simpl. destruct (f x') as [y'|] eqn:Ey; simpl; [|done].
  destruct (apply f l) as [ys|] eqn:Eys; simpl; [|done].
  intros [= <-]. destruct i as [|i]; simpl.
  - intros [= ->]. eauto.
  - intros Hx. eapply IH; eauto.
Qed.

(** C7 fails on the code.  For a row whose text is [s], in train or in
    test, [word_count] stores one more than the number of space characters
    of [s]: the number of pieces that single spaces cut [s] into, empty
    pieces included, and not the number of its tokens. *)
Theorem word_count_counts_pieces `{Externals}
    (new a : string) (st st' : Base) (table : Base -> DataFrame)
    (sa : list cell) (i : nat) (s : string) :
  table = train \/ table = test ->
  call (WordCount new a) st = (Ok tt, st') ->
  getitem (table st) a = Ok sa ->
  sa !! i = Some (Str s) ->
  exists sn,
    getitem (table st') new = Ok sn
    /\ sn !! i = Some (Int (Z.of_nat (S (count_char " " s)))).
Proof.
  intros Ht Hr Ea Hi. unfold_methods Hr.
  destruct Ht as [-> | ->]; run_M Hr; injection Hr as <-; cbn [train test];
    rewrite getitem_setitem_eq; eexists; (split; [reflexivity|]);
    injection Ea as ->.
  - destruct (apply_lookup _ _ _ _ _ E0 Hi) as (y & Hy & ->).
    rewrite count_words_spaces in Hy. by injection Hy as <-.
  - destruct (apply_lookup _ _ _ _ _ E2 Hi) as (y & Hy & ->).
    rewrite count_words_spaces in Hy. by injection Hy as <-.
Qed.

Lemma word_count_counts_pieces_witness :
  let st' := (@call sample_externals (WordCount "n" "text") notes).2 in
  @call sample_externals (WordCount "n" "text") notes = (Ok tt, st')
  /\ getitem (train notes) "text" = Ok [Str "a  b"; Str "one two"; Str ""]
  /\ (exists sn, getitem (train st') "n" = Ok sn
                 /\ sn !! 0%nat = Some (Int 3))
  /\ length (whitespace_tokens "a  b") = 2%nat.
Proof.
  intros st'.
  assert (@call sample_externals (WordCount "n" "text") notes = (Ok tt, st'))
    as Hr by (vm_compute; reflexivity).
  split; [exact Hr|]. split; [reflexivity|]. split; [|reflexivity].
  exact (@word_count_counts_pieces sample_externals "n" "text" notes st'
           train _ 0%nat "a  b" (or_introl eq_refl) Hr eq_refl eq_refl).
Defined.

(** On the sample: two spaces between two words, an empty text and a
    leading space give 3, 1 and 2 where the texts have 2, 0 and 1 tokens,
    and a tab does not separate. *)
Example word_count_sample :
  let st' := (@call sample_externals (WordCount "n" "text") notes).2 in
  getitem (train st') "n" = Ok [Int 3; Int 2; Int 1]
  /\ getitem (test st') "n" = Ok [Int 2; Int 1]
  /\ map (fun s => length (whitespace_tokens s))
         ["a  b"; "one two"; ""; " hi"; "tab	sep"]%string
     = [2; 2; 0; 1; 2]%nat.
Proof. vm_compute. done. Qed.

(** ** [divide] *)

Lemma zip_apply_lookup {A B C} (f : A -> B -> result C) l k r i x y :
  zip_apply f l k = Ok r ->
  l !! i = Some x -> k !! i = Some y ->
  exists z, f x y = Ok z /\ r !! i = Some z.
Proof.
  revert k r i. induction l as [|x' l IH]; intros [|y' k] r i; try done.
  simpl. destruct (f x' y') as [z'|] eqn:Ez; simpl; [|done].
  destruct (zip_apply f l k) as [zs|] eqn:Ezs; simpl; [|done].
  intros [= <-]. destruct i as [|i]; simpl.
  - intros [= ->] [= ->]. eauto.
  - intros Hx Hy. eapply IH; eauto.
Qed.

(** What [divide] stores for a row whose divisor is zero: 0 when the
    dividend is a number other than zero, NaN when the dividend is zero
    or missing. *)
Lemma divided_by_zero (x y : cell) (fx : f64) :
  is_zero y = true -> to_float x = Some fx ->
  rbind (cell_div x y) (fun q => Ok (replace_inf q))
  = Ok (match fx with
        | S754_zero _ | S754_nan => Num f64nan
        | _ => Num f64zero
        end).
Proof.
  intros Hy Hx. unfold cell_div, float_op. rewrite Hx.
  destruct y as [[| |]|[]| | |]; try discriminate Hy; simpl;
    by destruct fx.
Qed.

(** C2 fails on the code.  In a row, of train or of test, where the values
    of [a] and of [b] are both zero, [divide] stores NaN in the new column,
    not 0: the quotient 0/0 is not infinite, and only infinite quotients
    are replaced. *)
Theorem divide_zero_by_zero_is_nan `{Externals}
    (new a b : string) (st st' : Base) (table : Base -> DataFrame)
    (sa sb : list cell) (i : nat) (x y : cell) :
  table = train \/ table = test ->
  getitem (table st) a = Ok sa ->
  getitem (table st) b = Ok sb ->
  sa !! i = Some x -> sb !! i = Some y ->
  is_zero x = true -> is_zero y = true ->
  call (Divide new a b) st = (Ok tt, st') ->
  exists sn, getitem (table st') new = Ok sn /\ sn !! i = Some (Num f64nan).
Proof.
  intros Ht Ea Eb Hx Hy Zx Zy Hr. unfold_methods Hr.
  assert (forall q, cell_div x y = Ok q -> replace_inf q = Num f64nan) as Hq.
  { intros q Hq.
    destruct x as [[| |]|[]| | |]; try discriminate Zx;
      destruct y as [[| |]|[]| | |]; try discriminate Zy;
      by injection Hq as <-. }
  destruct Ht as [-> | ->]; run_M Hr; injection Hr as <-; cbn [train test];
    injection Ea as ->; injection Eb as ->.
  - rewrite getitem_setitem_eq in E5. injection E5 as <-.
    rewrite getitem_setitem_eq. eexists. split; [reflexivity|].
    destruct (zip_apply_lookup _ _ _ _ _ _ _ E1 Hx Hy) as (z & Hz & Hi).
    rewrite list_lookup_fmap, Hi. simpl. f_equal. by apply Hq.
  - rewrite getitem_setitem_eq in E6. injection E6 as <-.
    rewrite getitem_setitem_eq. eexists. split; [reflexivity|].
    destruct (zip_apply_lookup _ _ _ _ _ _ _ E4 Hx Hy) as (z & Hz & Hi).
    rewrite list_lookup_fmap, Hi. simpl. f_equal. by apply Hq.
Qed.

Lemma divide_zero_by_zero_is_nan_witness :
  let o := Divide "ratio" "kids" "kids" in
  let st' := (@call sample_externals o people).2 in
  getitem (train people) "kids" = Ok [Int 2; Int 0; Int 0]
  /\ [Int 2; Int 0; Int 0] !! 1%nat = Some (Int 0)
  /\ is_zero (Int 0) = true
  /\ @call sample_externals o people = (Ok tt, st')
  /\ exists sn,
       getitem (train st') "ratio" = Ok sn
       /\ sn !! 1%nat = Some (Num f64nan).
Proof.
  intros o st'.
  assert (@call sample_externals o people = (Ok tt, st')) as Hr
    by (vm_compute; reflexivity).
  repeat (split; [first [reflexivity | exact Hr]|]).
  exact (@divide_zero_by_zero_is_nan sample_externals
           "ratio" "kids" "kids" people st' train _ _ 1%nat (Int 0) (Int 0)
           (or_introl eq_refl)
           eq_refl eq_refl eq_refl eq_refl eq_refl eq_refl Hr).
Defined.

(** [divide] on the sample: 31/2, then 47/0 and 25/0 replaced by 0 in
    train; 52/4, then 0/0 left as NaN in test. *)
Example divide_sample :
  let st' := (@call sample_externals (Divide "share" "age" "kids") people).2 in
  getitem (train st') "share"
    = Ok [Num (f64div (f64of_Z 31) (f64of_Z 2)); Num f64zero; Num f64zero]
  /\ getitem (test st') "share" = Ok [Num (f64of_Z 13); Num f64nan].
Proof. vm_compute. done. Qed.

(** ** [outliers_fix] *)

Lemma apply_compare (above : bool) (t : f64) (s : list cell) mask :
  apply (if above then cell_gt t else cell_lt t) s = Ok mask ->
  mask = map (outside above t) s.
Proof.
  revert mask. induction s as [|x s IH]; simpl; intros mask.
  - by intros [= <-].
  - destruct (apply _ s) as [m|] eqn:Em.
    + rewrite (IH m eq_refl).
      unfold outside at 2. destruct above; unfold cell_gt, cell_lt;
        destruct (to_float x); simpl; congruence.
    + destruct above; unfold cell_gt, cell_lt;
        destruct (to_float x); simpl; congruence.
Qed.

Lemma assign_where_clamp above t (s : list cell) :
  assign_where (map (outside above t) s) (Num t) s = map (clamp above t) s.
Proof.
  unfold assign_where, clamp. induction s as [|x s IH]; simpl; [done|].
  by rewrite IH.
Qed.

Lemma count_true_map above t (s : list cell) :
  length (filter (fun b : bool => b = true) (map (outside above t) s))
  = count_outside above t s.
Proof.
  unfold count_outside. induction s as [|x s IH]; simpl; [done|].
  rewrite !filter_cons. destruct (outside above t x);
    repeat case_decide; try done; simpl; by rewrite IH.
Qed.

Lemma fix_upper_effect `{Externals} a q st st' :
  Feature.fix_upper a q st = (Ok tt, st') -> branch_effect true a q st st'.
Proof.
  intros Hr. unfold Feature.fix_upper, Feature.print_fixed in Hr. run_M Hr.
  injection Hr as <-. apply (apply_compare true) in E1. subst a2.
  exists a0, a1. cbn [train test target data_n_calls stdout].
  by rewrite assign_where_clamp, count_true_map.
Qed.

Lemma fix_lower_effect `{Externals} a q st st' :
  Feature.fix_lower a q st = (Ok tt, st') -> branch_effect false a q st st'.
Proof.
  intros Hr. unfold Feature.fix_lower, Feature.print_fixed in Hr. run_M Hr.
  injection Hr as <-. apply (apply_compare false) in E1. subst a2.
  exists a0, a1. cbn [train test target data_n_calls stdout].
  by rewrite assign_where_clamp, count_true_map.
Qed.

(** C6, as the code has it.  A call of [outliers_fix] that completes is
    the upper branch followed by the lower branch, each one run only for
    a percentile that is neither absent nor zero; a branch that runs
    takes the percentile of the column over train, replaces the train
    values strictly beyond it by it, prints the number and the percentage
    of changed rows, and leaves test alone; a branch that is skipped
    changes nothing. *)
Theorem outliers_fix_clamps_train `{Externals}
    (a : string) (lower upper : option cell) (st st' : Base) :
  Feature.outliers_fix a lower upper st = (Ok tt, st') ->
  exists st1,
    (if truthy upper
     then exists q, upper = Some q /\ branch_effect true a q st st1
     else st1 = st)
    /\ (if truthy lower
        then exists q, lower = Some q /\ branch_effect false a q st1 st'
        else st' = st1)
    /\ test st' = test st.
Proof.
  unfold Feature.outliers_fix, bind.
  destruct (Feature.when_truthy upper (Feature.fix_upper a) st)
    as [[[]|e] st1] eqn:Hu; [|done].
  intros Hl. exists st1.
  assert (if truthy upper
          then exists q, upper = Some q /\ branch_effect true a q st st1
          else st1 = st) as Pu.
  { unfold Feature.when_truthy in Hu. destruct upper as [q|].
    - destruct (truthy (Some q)).
      + exists q. split; [done|]. by apply fix_upper_effect.
      + by injection Hu as <-.
    - by injection Hu as <-. }
  assert (if truthy lower
          then exists q, lower = Some q /\ branch_effect false a q st1 st'
          else st' = st1) as Pl.
  { unfold Feature.when_truthy in Hl. destruct lower as [q|].
    - destruct (truthy (Some q)).
      + exists q. split; [done|]. by apply fix_lower_effect.
      + by injection Hl as <-.
    - by injection Hl as <-. }
  split; [exact Pu|]. split; [exact Pl|].
  transitivity (test st1).
  - destruct (truthy lower); [|by subst].
    destruct Pl as (q & _ & s & t & _ & _ & _ & Ht & _). exact Ht.
  - destruct (truthy upper); [|by subst].
    destruct Pu as (q & _ & s & t & _ & _ & _ & Ht & _). exact Ht.
Qed.

(** C6 as stated fails for a percentile that is 0: the argument is not
    null, yet the branch is skipped; the ages 31 and 47 stay above the
    0th percentile 25 and nothing is printed. *)
Lemma outliers_fix_zero_upper_skipped :
  let upper := Some (Int 0) in
  let '(r, st') :=
    @Feature.outliers_fix sample_externals "age" None upper people in
  upper <> None /\ r = Ok tt
  /\ @np_percentile sample_externals [Int 31; Int 47; Int 25] (Int 0)
     = Ok (f64of_Z 25)
  /\ outside true (f64of_Z 25) (Int 31) = true
  /\ getitem (train st') "age" = Ok [Int 31; Int 47; Int 25]
  /\ stdout st' = [].
Proof. vm_compute. repeat split; discriminate. Qed.

Lemma outliers_fix_clamps_train_witness :
  let st' :=
    (@Feature.outliers_fix sample_externals "age" None (Some (Int 50))
       people).2 in
  @Feature.outliers_fix sample_externals "age" None (Some (Int 50)) people
    = (Ok tt, st')
  /\ exists st1,
       (exists q, Some (Int 50) = Some q
                  /\ @branch_effect sample_externals true "age" q people st1)
       /\ st' = st1
       /\ test st' = test people.
Proof.
  intros st'.
  assert (@Feature.outliers_fix sample_externals "age" None (Some (Int 50))
            people = (Ok tt, st')) as Hr by (vm_compute; reflexivity).
  split; [exact Hr|].
  exact (@outliers_fix_clamps_train sample_externals
           "age" None (Some (Int 50)) people st' Hr).
Defined.

(** On the sample, with the median as upper bound: 47 becomes 31.0, one
    row of three is reported, test is untouched. *)
Example outliers_fix_sample :
  let st' :=
    (@Feature.outliers_fix sample_externals "age" None (Some (Int 50))
       people).2 in
  getitem (train st') "age" = Ok [Int 31; Num (f64of_Z 31); Int 25]
  /\ stdout st' = [mkReport 1 (percentage 1 3)]
  /\ test st' = test people.
Proof. vm_compute. done. Qed.

(** ** [density] *)

Lemma SFeqb_true (x y : f64) :
  SFeqb x y = true ->
  x = y \/ exists s s', x = S754_zero s /\ y = S754_zero s'.
Proof.
  unfold SFeqb, SFcompare.
  destruct x as [s| s| |s m e], y as [s'| s'| |s' m' e'];
    try discriminate; try (destruct s; discriminate);
    try (destruct s'; discriminate).
  - intros _. right. eauto.
  - destruct s, s'; try discriminate; by left.
  - destruct s, s'; try discriminate;
      destruct (Z.compare e e') eqn:Ee; try discriminate;
      apply Z.compare_eq in Ee; subst;
      destruct (Pos.compare_cont Eq m m') eqn:Em; try discriminate;
      apply Pos.compare_eq in Em; subst; by left.
Qed.

Lemma SFeqb_refl (x : f64) : is_nan x = false -> SFeqb x x = true.
Proof.
  unfold SFeqb, SFcompare. destruct x as [s| s| |s m e]; try done.
  - by destruct s.
  - intros _. rewrite Z.compare_refl.
    change (Pos.compare_cont Eq m m) with (Pos.compare m m).
    rewrite Pos.compare_refl. by destruct s.
Qed.

Lemma SFeqb_nan_r (x y : f64) : SFeqb x y = true -> is_nan y = false.
Proof. unfold SFeqb, SFcompare. by destruct x, y. Qed.

Lemma SFeqb_nan_l (x y : f64) : SFeqb x y = true -> is_nan x = false.
Proof. unfold SFeqb, SFcompare. by destruct x, y. Qed.

Lemma frequency_cons (v x : cell) (s : list cell) :
  frequency v (x :: s)
  = ((if cell_eqb x v then 1 else 0) + frequency v s)%nat.
Proof.
  unfold frequency. rewrite filter_cons.
  destruct (cell_eqb x v); by case_decide.
Qed.

Lemma dict_get_count_add (x v : cell) (vc : list (cell * nat)) :
  dict_get v (count_add x vc)
  = if cell_eqb x v then Some (S (default O (dict_get v vc)))
    else dict_get v vc.
Proof.
  induction vc as [|[k n] vc IH]; simpl; [done|].
  destruct (cell_eqb k x) eqn:Ekx; simpl.
  - destruct (cell_eqb k v) eqn:Ekv.
    + apply cell_eqb_sym in Ekx.
      by rewrite (cell_eqb_trans _ _ _ Ekx Ekv).
    + destruct (cell_eqb x v) eqn:Exv; [|done].
      rewrite (cell_eqb_trans _ _ _ Ekx Exv) in Ekv. done.
  - destruct (cell_eqb k v) eqn:Ekv; [|done].
    destruct (cell_eqb x v) eqn:Exv; [|done].
    apply cell_eqb_sym in Exv.
    rewrite (cell_eqb_trans _ _ _ Ekv Exv) in Ekx. done.
Qed.

(** The dictionary of [density] maps a value that is not missing to its
    frequency in the column, and has no entry for a value that does not
    occur. *)
Lemma dict_get_count_values (v : cell) (s : list cell) :
  isnull v = false ->
  dict_get v (count_values s)
  = if decide (frequency v s = O) then None else Some (frequency v s).
Proof.
  intros Hv. induction s as [|x s IH]; [done|].
  rewrite frequency_cons. simpl. destruct (isnull x) eqn:Ex.
  - by rewrite (cell_eqb_null _ _ Ex Hv).
  - rewrite dict_get_count_add, IH.
    destruct (cell_eqb x v); [|done].
    by destruct (decide (frequency v s = O)) as [->|].
Qed.

Lemma frequency_pos (v : cell) (s : list cell) :
  v ∈ s -> isnull v = false -> frequency v s <> O.
Proof.
  intros Hin Hv. induction Hin as [v s|v x s Hin IH];
    rewrite frequency_cons.
  - by rewrite cell_eqb_refl.
  - destruct (cell_eqb x v); [done|]. by apply IH.
Qed.

Lemma count_add_fresh (k x : cell) (vc : list (cell * nat)) :
  Forall (fun p => cell_eqb k p.1 = false) vc ->
  cell_eqb k x = false ->
  Forall (fun p => cell_eqb k p.1 = false) (count_add x vc).
Proof.
  intros Hf Hx. induction Hf as [|[k' n'] vc Hk Hf IH]; simpl.
  - by repeat constructor.
  - destruct (cell_eqb k' x); by constructor.
Qed.

Lemma count_add_distinct (x : cell) (vc : list (cell * nat)) :
  distinct_keys vc -> distinct_keys (count_add x vc).
Proof.
  induction 1 as [|k n vc Hf Hd IH]; simpl.
  - by repeat constructor.
  - destruct (cell_eqb k x) eqn:E; constructor; try done.
    by apply count_add_fresh.
Qed.

Lemma count_values_distinct (s : list cell) : distinct_keys (count_values s).
Proof.
  induction s as [|x s IH]; simpl; [constructor|].
  destruct (isnull x); [done|]. by apply count_add_distinct.
Qed.

Lemma count_add_key (x k : cell) (n : nat) (vc : list (cell * nat)) :
  (k, n) ∈ count_add x vc -> k = x \/ exists n', (k, n') ∈ vc.
Proof.
  induction vc as [|[k' n'] vc IH]; simpl.
  - intros ?%list_elem_of_singleton. left. congruence.
  - destruct (cell_eqb k' x).
    + intros [[= -> ->]|Hin]%elem_of_cons; right.
      * exists n'. left.
      * exists n. by right.
    + intros [[= -> ->]|Hin]%elem_of_cons.
      * right. exists n'. left.
      * destruct (IH Hin) as [->|[n0 H0]]; [by left|].
        right. exists n0. by right.
Qed.

Lemma count_values_key (k : cell) (n : nat) (s : list cell) :
  (k, n) ∈ count_values s -> k ∈ s /\ isnull k = false.
Proof.
  revert n. induction s as [|x s IH]; simpl; intros n.
  - by intros ?%elem_of_nil.
  - destruct (isnull x) eqn:Ex.
    + intros Hin. destruct (IH _ Hin). split; [by right|done].
    + intros [->|[n' Hin]]%count_add_key; [split; [left|done]|].
      destruct (IH _ Hin). split; [by right|done].
Qed.

Lemma in_dict_get (k : cell) (n : nat) (vc : list (cell * nat)) :
  distinct_keys vc -> (k, n) ∈ vc -> cell_eqb k k = true ->
  dict_get k vc = Some n.
Proof.
  intros Hd Hin Hk. induction Hd as [|k' n' vc Hf Hd IH]; simpl.
  - by apply elem_of_nil in Hin.
  - apply elem_of_cons in Hin as [[= -> ->]|Hin]; [by rewrite Hk|].
    rewrite Forall_forall in Hf. pose proof (Hf _ Hin) as Hne.
    simpl in Hne. rewrite Hne. by apply IH.
Qed.

Lemma dict_get_key (v : cell) (n : nat) (vc : list (cell * nat)) :
  dict_get v vc = Some n -> exists k, (k, n) ∈ vc /\ cell_eqb k v = true.
Proof.
  induction vc as [|[k' n'] vc IH]; simpl; [done|].
  destruct (cell_eqb k' v) eqn:E.
  - intros [= ->]. exists k'. split; [left|done].
  - intros (k & Hk & Hv)%IH. exists k. split; [by right|done].
Qed.

Lemma dict_get_in (v : cell) (n : nat) (vc : list (cell * nat)) :
  dict_get v vc = Some n -> exists k, (k, n) ∈ vc.
Proof. intros (k & Hk & _)%dict_get_key. eauto. Qed.

Lemma dict_get_null (x : cell) (s : list cell) :
  isnull x = true -> dict_get x (count_values s) = None.
Proof.
  intros Hx. destruct (dict_get x (count_values s)) as [n|] eqn:E; [|done].
  apply dict_get_key in E as (k & Hk & Hkx).
  apply count_values_key in Hk as [_ Hk].
  rewrite cell_eqb_comm, (cell_eqb_null _ _ Hx Hk) in Hkx. done.
Qed.

Lemma foldr_min_spec (n0 : nat) (vc : list (cell * nat)) :
  let m := foldr (fun p m => Nat.min p.2 m) n0 vc in
  (m <= n0 /\ Forall (fun p => m <= p.2) vc)%nat
  /\ (m = n0 \/ Exists (fun p => p.2 = m) vc).
Proof.
  induction vc as [|[k n] vc IH]; simpl.
  - split; [split; [lia|constructor]|by left].
  - destruct IH as [[Hle Hall] Hex]. split.
    + split; [lia|]. constructor; [simpl; lia|].
      eapply Forall_impl; [exact Hall|]. simpl. intros. lia.
    + destruct (Nat.min_spec n (foldr (fun p m => Nat.min p.2 m) n0 vc))
        as [[_ ->]|[_ ->]].
      * right. by apply Exists_cons_hd.
      * destruct Hex as [?|?]; [by left|]. right. by apply Exists_cons_tl.
Qed.

Lemma counts_min_spec (s : list cell) :
  (Forall (fun x => isnull x = true) s
   /\ counts_min (count_values s) = Num f64nan)
  \/ (exists m, counts_min (count_values s) = Int (Z.of_nat m)
                /\ is_min_frequency s m).
Proof.
  pose proof (count_values_distinct s) as Hd.
  assert (forall k n, (k, n) ∈ count_values s ->
            k ∈ s /\ isnull k = false /\ n = frequency k s) as Hsound.
  { intros k n Hin. destruct (count_values_key _ _ _ Hin) as [Hk Hn].
    repeat split; try done.
    pose proof (in_dict_get _ _ _ Hd Hin (cell_eqb_refl _ Hn)) as Hg.
    rewrite (dict_get_count_values _ _ Hn) in Hg.
    destruct (decide _); congruence. }
  assert (forall v, v ∈ s -> isnull v = false ->
            exists k, (k, frequency v s) ∈ count_values s) as Hcomplete.
  { intros v Hin Hv. apply (dict_get_in v).
    rewrite (dict_get_count_values _ _ Hv).
    rewrite decide_False; [done|by apply frequency_pos]. }
  destruct (count_values s) as [|[k0 n0] vc] eqn:E.
  - left. split; [|done]. apply Forall_forall. intros x Hx.
    destruct (isnull x) eqn:Ex; [done|].
    destruct (Hcomplete x Hx Ex) as [k Hk]. by apply elem_of_nil in Hk.
  - right. simpl. eexists. split; [reflexivity|].
    destruct (foldr_min_spec n0 vc) as [[Hle Hall] Hex]. split.
    + intros v Hin Hv. destruct (Hcomplete v Hin Hv) as [k Hk].
      apply elem_of_cons in Hk as [[= _ <-]|Hk]; [done|].
      rewrite Forall_forall in Hall. exact (Hall _ Hk).
    + destruct Hex as [Heq|Hex].
      * exists k0. rewrite Heq.
        destruct (Hsound k0 n0) as (? & ? & ?); [left|]. done.
      * apply Exists_exists in Hex as ([k n] & Hin & Hn). simpl in Hn.
        exists k. destruct (Hsound k n) as (? & ? & ?); [by right|].
        repeat split; try done. congruence.
Qed.

Lemma apply_density_of (s0 s d : list cell) :
  apply (density_of (count_values s0)) s = Ok d ->
  d = map (density_value (counts_min (count_values s0)) s0) s.
Proof.
  revert d. induction s as [|x s IH]; simpl; intros d.
  - by intros [= <-].
  - unfold density_of at 1. destruct (is_list x); [done|]. simpl.
    destruct (apply _ s) as [d'|]; [|done]. simpl. intros [= <-].
    rewrite (IH d' eq_refl). f_equal. unfold density_value.
    destruct (isnull x) eqn:Ex; simpl.
    + by rewrite dict_get_null.
    + rewrite (dict_get_count_values _ _ Ex).
      destruct (decide (frequency x s0 = O)) as [Hf|Hf].
      * by rewrite bool_decide_eq_true_2.
      * by rewrite bool_decide_eq_false_2.
Qed.

(** C4, as the code has it.  [density] adds the column [a ++ "_density"]
    to both frames.  A row of train or of test whose value is not missing
    and occurs in the column [a] of train receives the frequency of that
    value in train; every other row -- a missing value, in train as well as
    in test, or a value of test that train does not have -- receives the
    smallest frequency of a value of train (NaN when train has only missing
    values). *)
Theorem density_counts_train (a : string) (st st' : Base) :
  Feature.density a st = (Ok tt, st') ->
  exists (s_train s_test : list cell) (low : cell),
    getitem (train st) a = Ok s_train
    /\ getitem (test st) a = Ok s_test
    /\ ((Forall (fun x => isnull x = true) s_train /\ low = Num f64nan)
        \/ (exists m, low = Int (Z.of_nat m) /\ is_min_frequency s_train m))
    /\ getitem (train st') (a ++ "_density")
       = Ok (map (density_value low s_train) s_train)
    /\ getitem (test st') (a ++ "_density")
       = Ok (map (density_value low s_train) s_test).
Proof.
  intros Hr. unfold Feature.density in Hr. run_M Hr. injection Hr as <-.
  unfold value_counts in E0. destruct (existsb is_list a0); [done|].
  injection E0 as <-. apply apply_density_of in E1, E3. subst.
  exists a0, a3, (counts_min (count_values a0)). cbn [train test].
  rewrite !getitem_setitem_eq. repeat split; try done.
  destruct (counts_min_spec a0) as [[? ?]|(m & ? & ?)]; [by left|].
  right. by exists m.
Qed.

(** C4 as stated fails for a row of train whose value is missing: the last
    row of train receives 2, the smallest frequency, although one cell of
    the column is missing and no cell equals NaN. *)
Lemma density_of_missing_train_value :
  let '(r, st') := Feature.density "cabin" cabins in
  r = Ok tt
  /\ getitem (train cabins) "cabin"
     = Ok [Str "A"; Str "A"; Str "A"; Str "B"; Str "B"; Num f64nan]%string
  /\ getitem (train st') "cabin_density"
     = Ok [Int 3; Int 3; Int 3; Int 2; Int 2; Int 2]
  /\ getitem (test st') "cabin_density" = Ok [Int 3; Int 2; Int 2]
  /\ frequency (Num f64nan)
       [Str "A"; Str "A"; Str "A"; Str "B"; Str "B"; Num f64nan]%string = O
  /\ length (filter (fun x => isnull x = true)
       [Str "A"; Str "A"; Str "A"; Str "B"; Str "B"; Num f64nan]%string)
     = 1%nat.
Proof. vm_compute. done. Qed.

Lemma density_counts_train_witness :
  let st' := (Feature.density "cabin" cabins).2 in
  Feature.density "cabin" cabins = (Ok tt, st')
  /\ exists (s_train s_test : list cell) (low : cell),
       getitem (train cabins) "cabin" = Ok s_train
       /\ getitem (test cabins) "cabin" = Ok s_test
       /\ ((Forall (fun x => isnull x = true) s_train /\ low = Num f64nan)
           \/ (exists m, low = Int (Z.of_nat m)
                         /\ is_min_frequency s_train m))
       /\ getitem (train st') "cabin_density"
          = Ok (map (density_value low s_train) s_train)
       /\ getitem (test st') "cabin_density"
          = Ok (map (density_value low s_train) s_test).
Proof.
  intros st'.
  assert (Feature.density "cabin" cabins = (Ok tt, st')) as Hr
    by (vm_compute; reflexivity).
  split; [exact Hr|].
  exact (density_counts_train "cabin" cabins st' Hr).
Defined.

(** Integers in train and floats in test: a float is looked up by its
    value, so 1.0 finds the count of 1, and NaN, which equals nothing, gets
    the smallest count. *)
Example density_mixed_sample :
  let st := mkBase (mkFrame 3 [("n", [Int 1; Int 1; Int 2]);
                               ("y", [Int 0; Int 1; Int 0])]%string)
                   (mkFrame 2 [("n", [Num (f64of_Z 1); Num f64nan])]%string)
                   "y" 0 [] in
  let st' := (Feature.density "n" st).2 in
  getitem (train st') "n_density" = Ok [Int 2; Int 2; Int 1]
  /\ getitem (test st') "n_density" = Ok [Int 2; Int 1].
Proof. vm_compute. done. Qed.

(** ** [labels] *)

Section UniqueFacts.
Context {A : Type} (cmp : A -> A -> comparison).
Hypothesis cmp_eq : forall x y, cmp x y = Eq -> x = y.
Hypothesis cmp_refl : forall x, cmp x x = Eq.

Lemma in_insert_sorted (x y : A) (l : list A) :
  y ∈ insert_sorted cmp x l <-> y = x \/ y ∈ l.
Proof.
  induction l as [|z l IH]; simpl.
  - rewrite list_elem_of_singleton. set_solver.
  - destruct (cmp x z); rewrite !elem_of_cons; tauto.
Qed.

Lemma in_sort (y : A) (l : list A) : y ∈ sort cmp l <-> y ∈ l.
Proof.
  unfold sort. induction l as [|x l IH]; simpl; [done|].
  rewrite in_insert_sorted, IH, elem_of_cons. tauto.
Qed.

Lemma in_uniq_adjacent (y : A) (l : list A) :
  y ∈ uniq_adjacent cmp l <-> y ∈ l.
Proof.
  induction l as [|x l IH]; [done|].
  destruct l as [|z l]; [done|].
  change (uniq_adjacent cmp (x :: z :: l))
    with (match cmp x z with
          | Eq => uniq_adjacent cmp (z :: l)
          | _ => x :: uniq_adjacent cmp (z :: l)
          end).
  destruct (cmp x z) eqn:E.
  - apply cmp_eq in E as ->. rewrite IH, !elem_of_cons. tauto.
  - rewrite elem_of_cons, IH, !elem_of_cons. tauto.
  - rewrite elem_of_cons, IH, !elem_of_cons. tauto.
Qed.

Lemma in_np_unique (y : A) (l : list A) : y ∈ np_unique cmp l <-> y ∈ l.
Proof. unfold np_unique. by rewrite in_uniq_adjacent, in_sort. Qed.

(** Two classes at the same position are the same class. *)
Lemma index_of_inj (x y : A) (classes : list A) :
  x ∈ classes -> y ∈ classes ->
  index_of cmp x classes = index_of cmp y classes -> x = y.
Proof.
  induction classes as [|c classes IH]; simpl.
  - by intros ?%elem_of_nil.
  - intros Hx Hy.
    assert (forall v, v ∈ c :: classes -> cmp v c <> Eq -> v ∈ classes)
      as Htail.
    { intros v [->|?]%elem_of_cons Hne; [|done]. by rewrite cmp_refl in Hne. }
    destruct (cmp x c) eqn:Ex, (cmp y c) eqn:Ey; try done.
    + intros _. apply cmp_eq in Ex, Ey. congruence.
    + intros [= Hi]. apply IH; try done; apply Htail; congruence.
    + intros [= Hi]. apply IH; try done; apply Htail; congruence.
    + intros [= Hi]. apply IH; try done; apply Htail; congruence.
    + intros [= Hi]. apply IH; try done; apply Htail; congruence.
Qed.

Lemma encode_lookup (l : list A) (i : nat) (x : A) :
  l !! i = Some x ->
  encode cmp l !! i = Some (index_of cmp x (np_unique cmp l)).
Proof. intros Hi. unfold encode. by rewrite list_lookup_fmap, Hi. Qed.

(** Equal values get equal codes, different values different codes. *)
Lemma encode_codes (l : list A) (i j : nat) (x y : A) :
  l !! i = Some x -> l !! j = Some y ->
  exists m n,
    encode cmp l !! i = Some m /\ encode cmp l !! j = Some n
    /\ (m = n <-> x = y).
Proof.
  intros Hi Hj. eexists _, _.
  split; [by apply encode_lookup|]. split; [by apply encode_lookup|].
  split; [|by intros ->].
  apply index_of_inj; apply in_np_unique; by eapply list_elem_of_lookup_2.
Qed.
End UniqueFacts.

Lemma string_compare_refl (s : string) : String.compare s s = Eq.
Proof.
  pose proof (String.compare_antisym s s) as H.
  by destruct (String.compare s s).
Qed.

Lemma numval_compare_eq (u v : numval) : numval_compare u v = Eq -> u = v.
Proof.
  destruct u, v; simpl; try done. intros Hc. f_equal. by apply Qceq_alt.
Qed.

Lemma numval_compare_refl (u : numval) : numval_compare u u = Eq.
Proof. destruct u; simpl; try done. by apply Qceq_alt. Qed.

Lemma label_compare_eq (a b : label) : label_compare a b = Eq -> a = b.
Proof.
  destruct a, b; simpl; try done.
  - intros ?%numval_compare_eq. congruence.
  - intros ?%String.compare_eq_iff. congruence.
Qed.

Lemma label_compare_refl (a : label) : label_compare a a = Eq.
Proof.
  destruct a; simpl; try done.
  - apply numval_compare_refl.
  - apply string_compare_refl.
Qed.

Lemma f64_value_nan (x : f64) :
  is_nan x = match f64_value x with None => true | Some _ => false end.
Proof. by destruct x. Qed.


(** The encoder tells two cells apart exactly when they do not hold the
    same value. *)
Lemma label_of_same (x y : cell) (a b : label) :
  label_of x = Some a -> label_of y = Some b -> (a = b <-> same_value x y).
Proof.
  unfold same_value, cell_eqb.
  destruct x as [z|f|t|l|], y as [z'|f'|t'|l'|]; simpl;
    intros [= <-] [= <-]; rewrite ?f64_value_nan;
    repeat match goal with
           | |- context [f64_value ?v] => destruct (f64_value v)
           end; simpl; rewrite ?bool_decide_eq_true;
    repeat match goal with
           | |- context [Z_value ?v] => generalize (Z_value v); intro
           end; naive_solver.
Qed.


Lemma fit_transform_codes (s s' : list cell) :
  fit_transform s = Ok s' -> same_codes s s'.
Proof.
  unfold fit_transform. destruct (mapM label_of s) as [ls|] eqn:El; [|done].
  destruct (_ && _); [done|]. intros [= <-].
  apply mapM_Some in El. split.
  - unfold encode. rewrite !length_fmap. symmetry. by eapply Forall2_length.
  - intros i j x y Hi Hj.
    destruct (Forall2_lookup_l _ _ _ i x El Hi) as (a & Ha & Hxa).
    destruct (Forall2_lookup_l _ _ _ j y El Hj) as (b & Hb & Hyb).
    destruct (encode_codes label_compare label_compare_eq label_compare_refl
                ls i j a b Ha Hb) as (m & n & Hm & Hn & Hmn).
    exists (Z.of_nat m), (Z.of_nat n).
    rewrite !list_lookup_fmap, Hm, Hn. repeat split; try done.
    + intros ?%Nat2Z.inj. apply (label_of_same x y a b); [done..|].
      by apply Hmn.
    + intros Hs. f_equal. apply Hmn. by apply (label_of_same x y a b).
Qed.




Lemma lookup_col_filter a (fs : list string)
    (cs : list (string * list cell)) :
  a ∉ fs ->
  lookup_col a (filter (fun c => c.1 ∉ fs) cs) = lookup_col a cs.
Proof.
  intros Ha. induction cs as [|[n v] cs IH]; simpl; [done|].
  rewrite filter_cons. simpl. destruct (decide (n ∉ fs)) as [Hn|Hn]; simpl.
  - by rewrite IH.
  - rewrite IH. case_decide; [|done]. by subst.
Qed.




Lemma getitem_frame_drop fs df df' f :
  frame_drop fs df = Ok df' -> f ∉ fs -> getitem df' f = getitem df f.
Proof.
  unfold frame_drop. destruct (forallb _ _); [|done].
  intros [= <-] Hf. unfold getitem. simpl. by rewrite lookup_col_filter.
Qed.

Lemma wf_frame_length df f s :
  wf_frame df -> getitem df f = Ok s -> length s = nrows df.
Proof.
  intros [_ Hlen]. unfold getitem.
  destruct (lookup_col f (cols df)) as [v|] eqn:E; [|done].
  intros [= ->]. revert E.
  induction Hlen as [|[n v] cs Hv _ IH]; simpl; [done|].
  case_decide; [by intros [= ->]|done].
Qed.


Lemma nrows_encode_features (features : list string) (df df' : DataFrame) :
  Feature.encode_features features df = Ok df' -> nrows df' = nrows df.
Proof.
  revert df. induction features as [|f features IH];
    cbn [Feature.encode_features]; intros df.
  - by intros [= <-].
  - destruct (getitem df f) as [s|]; cbn [rbind]; [|done].
    destruct (fit_transform s) as [s'|]; cbn [rbind]; [|done].
    intros Hr. by rewrite (IH _ Hr).
Qed.



(** On the sample: the names Ann, Jane, John, Max get the codes 0 to 3 in
    both frames, and test is left without the target column. *)
Example labels_sample :
  let st' := (Feature.labels ["first"; "kids"]%string people).2 in
  getitem (train st') "first" = Ok [Int 1; Int 2; Int 0]
  /\ getitem (test st') "first" = Ok [Int 3; Int 1]
  /\ getitem (train st') "kids" = Ok [Int 1; Int 0; Int 0]
  /\ getitem (test st') "kids" = Ok [Int 2; Int 0]
  /\ getitem (test st') "survived" = Err KeyError
  /\ data_n_calls st' = 1%nat.
Proof. vm_compute. done. Qed.

(** A column of text with missing values and a column of integers and
    floats: the float 7.0 and the integer 7 get one code, and NaN gets the
    last code, in train and in test alike. *)
Example labels_mixed_sample :
  let st' := (Feature.labels ["deck"; "fare"]%string mixed).2 in
  getitem (train st') "deck" = Ok [Int 1; Int 3; Int 0; Int 3]
  /\ getitem (test st') "deck" = Ok [Int 0; Int 2; Int 3]
  /\ getitem (train st') "fare" = Ok [Int 0; Int 2; Int 3; Int 0]
  /\ getitem (test st') "fare" = Ok [Int 0; Int 3; Int 1].
Proof. vm_compute. done. Qed.

(** Text beside numbers cannot be sorted, and a list object cannot be
    hashed. *)
Example labels_rejects :
  fit_transform [Str "a"; Int 1]%string = Err TypeError
  /\ fit_transform [Lst []; Lst []] = Err TypeError
  /\ fit_transform [Null; Int 2; Num f64nan; Int 1]
     = Ok [Int 2; Int 1; Int 3; Int 0].
Proof. vm_compute. done. Qed.

(** ** [round] *)

(** A column of integers is left as it is by a number of places that is
    not negative. *)
Lemma np_round_int (z decimals : Z) :
  0 <= decimals -> np_round (Int z) decimals = Ok (Int z).
Proof. intros Hd. simpl. by rewrite (proj2 (Z.leb_le _ _) Hd). Qed.

(** A missing value stays missing. *)
Lemma np_round_nan (decimals : Z) :
  np_round (Num f64nan) decimals = Ok (Num f64nan).
Proof.
  simpl. unfold round_f64.
  destruct (decimals =? 0); [done|]. by destruct (0 <? decimals).
Qed.

(** On a sample: to two places, 2.675 becomes 2.68 (its product with 100
    is the float 267.5, a tie that goes to the even integer), 0.125 becomes
    0.12 (the tie 12.5 goes to 12), -0.5 and NaN stay, 10/3 becomes 3.33;
    rounding the new column again to two places leaves it as it is. *)
Example round_sample :
  let x := fun a b => Num (f64div (f64of_Z a) (f64of_Z b)) in
  let st := mkBase (mkFrame 4 [("price", [x 2675 1000; x 1 8; x (-1) 2;
                                           Num f64nan]);
                               ("y", [Int 0; Int 1; Int 0; Int 1])]%string)
                   (mkFrame 1 [("price", [x 10 3])]%string)
                   "y" 0 [] in
  let st1 := (Feature.round "r" "price" 2 st).2 in
  let st2 := (Feature.round "rr" "r" 2 st1).2 in
  getitem (train st1) "r" = Ok [x 268 100; x 12 100; x (-1) 2; Num f64nan]
  /\ getitem (test st1) "r" = Ok [x 333 100]
  /\ getitem (train st2) "rr" = getitem (train st1) "r"
  /\ getitem (test st2) "rr" = getitem (test st1) "r".
Proof. vm_compute. done. Qed.

(** ** What every method keeps *)

Lemma nrows_frame_drop fs df df' :
  frame_drop fs df = Ok df' -> nrows df' = nrows df.
Proof. unfold frame_drop. destruct (forallb _ _); [|done]. by intros [= <-]. Qed.

Lemma frame_drop_present fs df :
  list_to_set fs ⊆ colset df -> exists df', frame_drop fs df = Ok df'.
Proof.
  intros Hsub. unfold frame_drop.
  destruct (forallb _ _) eqn:E; [eauto|].
  apply not_true_iff_false in E. destruct E. apply forallb_forall.
  intros f Hf. apply bool_decide_eq_true.
  apply list_elem_of_In in Hf.
  assert (f ∈ colset df) as Hin by set_solver.
  unfold colset in Hin. by apply elem_of_list_to_set in Hin.
Qed.

Ltac unfold_outliers H :=
  unfold call, Feature.outliers_fix, Feature.when_truthy, Feature.fix_upper,
    Feature.fix_lower, Feature.print_fixed in H.

Ltac nrows_facts :=
  repeat match goal with
    | E : frame_drop _ _ = Ok _ |- _ => apply nrows_frame_drop in E
    | E : Feature.encode_features _ _ = Ok _ |- _ =>
        apply nrows_encode_features in E
    end.

(** X1.  Whatever a method does, and whether it completes or raises, it
    leaves the name of the target and the number of rows of train and of
    test as they were. *)
Theorem rows_and_target_kept `{Externals} (o : op) (st : Base) :
  target (call o st).2 = target st
  /\ nrows (train (call o st).2) = nrows (train st)
  /\ nrows (test (call o st).2) = nrows (test st).
Proof.
  destruct (call o st) as [r st'] eqn:Hr. cbn [snd].
  destruct o; unfold_methods Hr; unfold_outliers Hr;
    try (destruct lower; destruct upper);
    run_M Hr; injection Hr as <- <-; cbn [train test target];
    nrows_facts; simpl in *; repeat split; lia.
Qed.

(** X2.  A method that completes has invoked [data_n] a number of times
    that its arguments fix: never for [fillna], [replace], [concat] and
    [regex_extract], once for each branch that runs for [outliers_fix],
    once for any other method; and [outliers_fix] has printed one line for
    each of these invocations, while no other method prints. *)
Theorem data_n_and_print_counts `{Externals} (o : op) (st st' : Base) :
  call o st = (Ok tt, st') ->
  data_n_calls st' = (data_n_calls st + hook_calls o)%nat
  /\ length (stdout st')
     = (length (stdout st)
        + if is_outliers_fix o then hook_calls o else 0)%nat.
Proof.
  intros Hr.
  destruct o; unfold_methods Hr; unfold_outliers Hr;
    try (destruct lower as [l|]; destruct upper as [u|]);
    cbn [hook_calls is_outliers_fix];
    try destruct (truthy (Some l)); try destruct (truthy (Some u));
    run_M Hr; injection Hr as <-; cbn [data_n_calls stdout truthy];
    rewrite ?length_app; simpl; split; lia.
Qed.

(** X3.  A method that raises leaves test as it was, unless it is [labels]
    or [impute], which attach the placeholder target to test first: a
    failure never leaves a half-written column in test. *)
Theorem failure_leaves_test `{Externals} (o : op) (st st' : Base) (e : exn) :
  attaches_target o = false ->
  call o st = (Err e, st') ->
  test st' = test st.
Proof.
  intros Ha Hr.
  destruct o; try discriminate Ha; unfold_methods Hr; unfold_outliers Hr;
    try (destruct lower; destruct upper);
    run_M Hr;
    try match goal with
        | E : getitem (setitem _ ?a _) ?a = Err _ |- _ =>
            rewrite getitem_setitem_eq in E; discriminate E
        end;
    by injection Hr as <- <-.
Qed.

Lemma data_n_and_print_counts_witness :
  let o := OutliersFix "age" (Some (Int 0)) (Some (Int 50)) in
  let st' := (@call sample_externals o people).2 in
  @call sample_externals o people = (Ok tt, st')
  /\ data_n_calls st' = 1%nat /\ length (stdout st') = 1%nat.
Proof.
  intros o st'.
  assert (@call sample_externals o people = (Ok tt, st')) as Hr
    by (vm_compute; reflexivity).
  split; [exact Hr|].
  exact (@data_n_and_print_counts sample_externals o people st' Hr).
Defined.

Lemma failure_leaves_test_witness :
  let o := WordCount "n" "age" in
  let st' := (@call sample_externals o people).2 in
  attaches_target o = false
  /\ @call sample_externals o people = (Err AttributeError, st')
  /\ test st' = test people.
Proof.
  intros o st'.
  assert (@call sample_externals o people = (Err AttributeError, st')) as Hr
    by (vm_compute; reflexivity).
  split; [reflexivity|]. split; [exact Hr|].
  exact (@failure_leaves_test sample_externals o people st' AttributeError
           eq_refl Hr).
Defined.

(** ** [drop] *)

Lemma lookup_col_dropped a (fs : list string)
    (cs : list (string * list cell)) :
  a ∈ fs -> lookup_col a (filter (fun c => c.1 ∉ fs) cs) = None.
Proof.
  intros Ha. induction cs as [|[n v] cs IH]; simpl; [done|].
  rewrite filter_cons. simpl. destruct (decide (n ∉ fs)) as [Hn|Hn]; simpl.
  - rewrite decide_False; [done|]. by intros ->.
  - done.
Qed.

Lemma getitem_frame_dropped fs df df' f :
  frame_drop fs df = Ok df' -> f ∈ fs -> getitem df' f = Err KeyError.
Proof.
  unfold frame_drop. destruct (forallb _ _); [|done].
  intros [= <-] Hf. unfold getitem. simpl. by rewrite lookup_col_dropped.
Qed.

(** X4.  After a [drop] that completes, no named column is left in train
    or in test, every other column of the two frames is as it was, and
    [data_n] has been invoked. *)
Theorem drop_removes_named_columns
    (features : list string) (st st' : Base) (res : Z * Z) :
  Feature.drop features st = (Ok res, st') ->
  (forall f, f ∈ features ->
     getitem (train st') f = Err KeyError
     /\ getitem (test st') f = Err KeyError)
  /\ (forall f, f ∉ features ->
        getitem (train st') f = getitem (train st) f
        /\ getitem (test st') f = getitem (test st) f).
Proof.
  intros Hr. unfold Feature.drop in Hr. run_M Hr. injection Hr as <- <-.
  cbn [train test]. split; intros f Hf; split;
    eauto using getitem_frame_dropped, getitem_frame_drop.
Qed.

Lemma drop_removes_named_columns_witness :
  let st' := (Feature.drop ["first"; "last"]%string people).2 in
  Feature.drop ["first"; "last"]%string people = (Ok (2, 3), st')
  /\ (forall f, f ∈ ["first"; "last"]%string ->
        getitem (train st') f = Err KeyError
        /\ getitem (test st') f = Err KeyError)
  /\ (forall f, f ∉ ["first"; "last"]%string ->
        getitem (train st') f = getitem (train people) f
        /\ getitem (test st') f = getitem (test people) f).
Proof.
  intros st'.
  assert (Feature.drop ["first"; "last"]%string people = (Ok (2, 3), st'))
    as Hr by (vm_compute; reflexivity).
  split; [exact Hr|].
  exact (drop_removes_named_columns _ people st' _ Hr).
Defined.

Lemma filter_fmap_fst (fs : list string) (cs : list (string * list cell)) :
  (filter (fun c => c.1 ∈ fs) cs).*1 = filter (fun n => n ∈ fs) cs.*1.
Proof.
  induction cs as [|[n v] cs IH]; [done|].
  rewrite fmap_cons. cbn [fst]. rewrite !filter_cons. cbn [fst].
  destruct (decide (n ∈ fs)); [rewrite fmap_cons; cbn [fst]|];
    by rewrite IH.
Qed.

Lemma length_kept_columns (fs : list string)
    (cs : list (string * list cell)) :
  NoDup cs.*1 -> NoDup fs -> (forall f, f ∈ fs -> f ∈ cs.*1) ->
  (length (filter (fun c => c.1 ∉ fs) cs) + length fs = length cs)%nat.
Proof.
  intros Hcs Hfs Hsub.
  assert (length (filter (fun c : string * list cell => c.1 ∈ fs) cs)
          = length fs) as Hin.
  { transitivity (length (filter (fun c : string * list cell => c.1 ∈ fs) cs).*1);
      [by rewrite length_fmap|].
    rewrite filter_fmap_fst.
    apply Permutation_length, NoDup_Permutation; [by apply NoDup_filter|done|].
    intros x. rewrite list_elem_of_filter. naive_solver. }
  pose proof (filter_app_complement (fun c : string * list cell => c.1 ∈ fs) cs)
    as Hp.
  apply Permutation_length in Hp. rewrite length_app in Hp.
  rewrite <- Hin. rewrite <- Hp. lia.
Qed.

(** X5.  On a train frame whose column names are distinct, a [drop] of
    distinct names that completes returns the number of names as the count
    of dropped columns and the number of columns left in train as the count
    of available ones. *)
Theorem drop_reports_counts
    (features : list string) (st st' : Base) (res : Z * Z) :
  NoDup (columns (train st)) -> NoDup features ->
  Feature.drop features st = (Ok res, st') ->
  res = (Z.of_nat (length features), Z.of_nat (ncols (train st')))
  /\ (ncols (train st') + length features = ncols (train st))%nat.
Proof.
  intros Hcols Hfs Hr. unfold Feature.drop in Hr. run_M Hr.
  injection Hr as <- <-. cbn [train].
  assert (ncols a + length features = ncols (train st))%nat as Hlen.
  { unfold frame_drop in E. destruct (forallb _ _) eqn:Ef; [|done].
    injection E as <-. unfold ncols. simpl.
    apply length_kept_columns; try done.
    intros f Hf. rewrite forallb_forall in Ef.
    apply list_elem_of_In, Ef, bool_decide_eq_true in Hf. done. }
  split; [|done]. f_equal. lia.
Qed.

Lemma drop_reports_counts_witness :
  let features := ["first"; "last"]%string in
  let st' := (Feature.drop features people).2 in
  NoDup (columns (train people)) /\ NoDup features
  /\ Feature.drop features people = (Ok (2, 3), st')
  /\ (2, 3) = (Z.of_nat (length features), Z.of_nat (ncols (train st')))
  /\ (ncols (train st') + length features = ncols (train people))%nat.
Proof.
  intros features st'.
  assert (NoDup (columns (train people))) as Hc
    by (by apply (bool_decide_unpack _)).
  assert (NoDup features) as Hf by (by apply (bool_decide_unpack _)).
  assert (Feature.drop features people = (Ok (2, 3), st')) as Hr
    by (vm_compute; reflexivity).
  repeat (split; [assumption|]).
  exact (drop_reports_counts features people st' (2, 3) Hc Hf Hr).
Defined.

Lemma frame_drop_absent fs df f :
  f ∈ fs -> f ∉ colset df -> frame_drop fs df = Err KeyError.
Proof.
  intros Hf Hn. unfold frame_drop.
  destruct (forallb _ _) eqn:E; [|done].
  rewrite forallb_forall in E.
  apply list_elem_of_In, E, bool_decide_eq_true in Hf.
  destruct Hn. unfold colset. by apply elem_of_list_to_set.
Qed.

(** X6.  [drop] does not roll back: when every named column is in train
    but one of them is not in test -- the target, for one -- the call
    raises [KeyError] after train has lost the columns; test is untouched
    and [data_n] is not invoked. *)
Theorem drop_fails_after_train (features : list string) (st : Base)
    (f : string) :
  list_to_set features ⊆ colset (train st) ->
  f ∈ features -> f ∉ colset (test st) ->
  exists tr',
    frame_drop features (train st) = Ok tr'
    /\ Feature.drop features st
       = (Err KeyError,
          mkBase tr' (test st) (target st) (data_n_calls st) (stdout st))
    /\ forall g, g ∈ features -> getitem tr' g = Err KeyError.
Proof.
  intros Hsub Hf Hn.
  destruct (frame_drop_present _ _ Hsub) as [tr' Htr]. exists tr'.
  split; [done|]. split.
  - unfold Feature.drop. step_goal. rewrite Htr. step_goal.
    by rewrite (frame_drop_absent _ _ f Hf Hn).
  - intros g Hg. by eapply getitem_frame_dropped.
Qed.

Lemma drop_fails_after_train_witness :
  let features := ["last"; "survived"]%string in
  (list_to_set features ⊆ colset (train people))
  /\ "survived"%string ∈ features
  /\ ("survived"%string ∉ colset (test people))
  /\ exists tr',
       frame_drop features (train people) = Ok tr'
       /\ Feature.drop features people
          = (Err KeyError,
             mkBase tr' (test people) (target people)
               (data_n_calls people) (stdout people))
       /\ forall g, g ∈ features -> getitem tr' g = Err KeyError.
Proof.
  intros features.
  assert (list_to_set features ⊆ colset (train people)) as Hsub
    by (by apply (bool_decide_unpack _)).
  assert ("survived"%string ∈ features) as Hf
    by (by apply (bool_decide_unpack _)).
  assert ("survived"%string ∉ colset (test people)) as Hn
    by (by apply (bool_decide_unpack _)).
  repeat (split; [assumption|]).
  exact (drop_fails_after_train features people "survived" Hsub Hf Hn).
Defined.

(** ** [fillna] and [replace] *)

(** X7.  After [fillna] completes, in train and in test alike, a cell of
    the column that was missing holds the new value and every other cell
    of the column is as it was; no cell of the column is missing any more
    if the new value is not itself missing; the other columns are
    untouched. *)
Theorem fillna_fills_missing
    (a : string) (new : cell) (st st' : Base) (table : Base -> DataFrame) :
  table = train \/ table = test ->
  Feature.fillna a new st = (Ok tt, st') ->
  exists s s',
    getitem (table st) a = Ok s
    /\ getitem (table st') a = Ok s'
    /\ Forall2 (fun x y => y = if isnull x then new else x) s s'
    /\ (isnull new = false -> Forall (fun y => isnull y = false) s')
    /\ forall b, b <> a -> getitem (table st') b = getitem (table st) b.
Proof.
  intros Ht Hr. unfold Feature.fillna in Hr. run_M Hr. injection Hr as <-.
  assert (forall s, Forall2 (fun x y => y = if isnull x then new else x)
                      s (series_fillna new s)) as H2.
  { intros s. unfold series_fillna. induction s; simpl; by constructor. }
  assert (forall s, isnull new = false ->
            Forall (fun y => isnull y = false) (series_fillna new s)) as Hn.
  { intros s Hnew. unfold series_fillna.
    induction s as [|x s IH]; simpl; constructor; [|done].
    by destruct (isnull x) eqn:Ex. }
  destruct Ht as [-> | ->]; cbn [train test]; eexists _, _;
    (split; [done|]); rewrite getitem_setitem_eq;
    (split; [done|]); (split; [apply H2|]); (split; [apply Hn|]);
    intros b Hb; by rewrite getitem_setitem_ne.
Qed.

Lemma fillna_fills_missing_witness :
  let st' := (Feature.fillna "deck" (Str "U") sparse).2 in
  Feature.fillna "deck" (Str "U") sparse = (Ok tt, st')
  /\ getitem (train st') "deck" = Ok [Str "A"; Str "U"; Str "U"]%string
  /\ exists s s',
       getitem (train sparse) "deck" = Ok s
       /\ getitem (train st') "deck" = Ok s'
       /\ Forall2 (fun x y => y = if isnull x then Str "U" else x) s s'
       /\ (isnull (Str "U") = false -> Forall (fun y => isnull y = false) s')
       /\ forall b, b <> "deck"%string ->
            getitem (train st') b = getitem (train sparse) b.
Proof.
  intros st'.
  assert (Feature.fillna "deck" (Str "U") sparse = (Ok tt, st')) as Hr
    by (vm_compute; reflexivity).
  split; [exact Hr|]. split; [reflexivity|].
  exact (fillna_fills_missing "deck" (Str "U") sparse st' train
           (or_introl eq_refl) Hr).
Defined.






(** ** [add] *)

Lemma wrap64_cancel (x n : Z) :
  - 2 ^ 63 <= x < 2 ^ 63 -> wrap64 (wrap64 (x + n) + - n) = x.
Proof.
  intros Hx. unfold wrap64.
  replace ((x + n + 2 ^ 63) mod 2 ^ 64 - 2 ^ 63 + - n + 2 ^ 63)
    with ((x + n + 2 ^ 63) mod 2 ^ 64 - n) by lia.
  rewrite Zminus_mod_idemp_l.
  replace (x + n + 2 ^ 63 - n) with (x + 2 ^ 63) by lia.
  rewrite Z.mod_small; lia.
Qed.

Lemma store_col_restore a (v w : list cell) (cs : list (string * list cell)) :
  lookup_col a cs = Some v -> store_col a v (store_col a w cs) = cs.
Proof.
  induction cs as [|[n u] cs IH]; simpl; [done|].
  destruct (decide (n = a)) as [->|Hne]; simpl.
  - intros [= ->]. by rewrite decide_True.
  - intros Hl. rewrite decide_False by done. by rewrite IH.
Qed.

Lemma setitem_restore df a (v w : list cell) :
  getitem df a = Ok v -> setitem (setitem df a w) a v = df.
Proof.
  unfold getitem, setitem. destruct df as [n cs]. simpl.
  destruct (lookup_col a cs) eqn:E; [|done]. intros [= ->].
  by rewrite store_col_restore.
Qed.

Lemma apply_add_int (n : Z) (s : list cell) :
  Forall (fun c => is_int64 c = true) s ->
  exists s',
    apply (fun x => cell_add x (Int n)) s = Ok s'
    /\ apply (fun x => cell_add x (Int (- n))) s' = Ok s.
Proof.
  induction 1 as [|c s Hc _ (s' & E1 & E2)]; simpl; [by exists []|].
  destruct c as [z| | | |]; try discriminate Hc. simpl.
  rewrite E1. simpl. eexists. split; [reflexivity|]. simpl. rewrite E2. simpl.
  rewrite wrap64_cancel; [done|].
  apply andb_true_iff in Hc as [?%Z.leb_le ?%Z.ltb_lt]. lia.
Qed.

(** X9.  On a column of 64-bit integers, [add] of a number followed by
    [add] of its opposite gives back both frames exactly, also when the
    first addition wraps around; only the count of [data_n] invocations
    has grown, by two. *)
Theorem add_then_subtract_restores
    (a : string) (n : Z) (st : Base) (sa sb : list cell) :
  getitem (train st) a = Ok sa ->
  getitem (test st) a = Ok sb ->
  Forall (fun c => is_int64 c = true) (sa ++ sb) ->
  - 2 ^ 63 < n < 2 ^ 63 ->
  exists st1,
    Feature.add a (Int n) st = (Ok tt, st1)
    /\ Feature.add a (Int (- n)) st1
       = (Ok tt, mkBase (train st) (test st) (target st)
                   (S (S (data_n_calls st))) (stdout st)).
Proof.
  intros Ea Eb Hint _. apply Forall_app in Hint as [Ha Hb].
  destruct (apply_add_int n sa Ha) as (sa' & A1 & A2).
  destruct (apply_add_int n sb Hb) as (sb' & B1 & B2).
  eexists. split.
  - unfold Feature.add. step_goal. rewrite Ea. step_goal. rewrite A1.
    step_goal. rewrite Eb. step_goal. rewrite B1. reflexivity.
  - unfold Feature.add. step_goal. rewrite !getitem_setitem_eq. step_goal.
    rewrite A2. step_goal. rewrite B2. step_goal.
    by rewrite !setitem_restore.
Qed.

Lemma add_then_subtract_restores_witness :
  let big := 2 ^ 63 - 1 in
  getitem (train people) "age" = Ok [Int 31; Int 47; Int 25]
  /\ getitem (test people) "age" = Ok [Int 52; Int 0]
  /\ Feature.add "age" (Int big) people
     = (Ok tt,
        (Feature.add "age" (Int big) people).2)
  /\ getitem (train (Feature.add "age" (Int big) people).2) "age"
     = Ok [Int (- 2 ^ 63 + 30); Int (- 2 ^ 63 + 46); Int (- 2 ^ 63 + 24)]
  /\ exists st1,
       Feature.add "age" (Int big) people = (Ok tt, st1)
       /\ Feature.add "age" (Int (- big)) st1
          = (Ok tt, mkBase (train people) (test people) (target people)
                      (S (S (data_n_calls people))) (stdout people)).
Proof.
  intros big.
  split; [reflexivity|]. split; [reflexivity|].
  split; [vm_compute; reflexivity|]. split; [vm_compute; reflexivity|].
  apply (add_then_subtract_restores "age" big people _ _ eq_refl eq_refl).
  - repeat constructor.
  - unfold big. lia.
Defined.

(** ** Well-formed frames stay well formed *)

Lemma apply_length {A B} (f : A -> result B) (l : list A) (r : list B) :
  apply f l = Ok r -> length r = length l.
Proof.
  revert r. induction l as [|x l IH]; simpl; intros r.
  - by intros [= <-].
  - destruct (f x); simpl; [|done].
    destruct (apply f l) as [ys|]; simpl; [|done].
    intros [= <-]. simpl. by rewrite (IH ys).
Qed.

Lemma zip_apply_length {A B C} (f : A -> B -> result C) l k r :
  zip_apply f l k = Ok r -> length r = Nat.min (length l) (length k).
Proof.
  revert k r. induction l as [|x l IH]; intros [|y k] r; simpl;
    try (by intros [= <-]).
  destruct (f x y); simpl; [|done].
  destruct (zip_apply f l k) as [zs|] eqn:E; simpl; [|done].
  intros [= <-]. simpl. by rewrite (IH _ _ E).
Qed.

Lemma NoDup_filter_names (P : string * list cell -> Prop)
    `{!forall c, Decision (P c)} (cs : list (string * list cell)) :
  NoDup cs.*1 -> NoDup (filter P cs).*1.
Proof.
  intros Hn. apply (sublist_NoDup _ cs.*1); [done|].
  apply fmap_sublist, sublist_filter.
Qed.

Lemma lookup_col_Forall (P : string * list cell -> Prop) a v cs :
  Forall P cs -> lookup_col a cs = Some v -> P (a, v).
Proof.
  induction 1 as [|[n w] cs Hc _ IH]; simpl; [done|].
  case_decide; [|done]. subst. by intros [= <-].
Qed.

Lemma NoDup_store_col a v (cs : list (string * list cell)) :
  NoDup cs.*1 -> NoDup (store_col a v cs).*1.
Proof.
  induction cs as [|[n w] cs IH]; simpl.
  - intros _. apply NoDup_singleton.
  - intros [Hn Hcs]%NoDup_cons. case_decide; simpl.
    + by apply NoDup_cons.
    + apply NoDup_cons. split; [|by apply IH].
      intros Hin.
      assert (n ∈ (list_to_set (store_col a v cs).*1 : gset string)) as Hs
        by (by apply elem_of_list_to_set).
      rewrite store_col_names in Hs. set_solver.
Qed.

Lemma Forall_store_col (P : string * list cell -> Prop) a v cs :
  Forall P cs -> (forall n, P (n, v)) -> Forall P (store_col a v cs).
Proof.
  intros Hcs Hv. induction Hcs as [|[n w] cs Hc Hcs IH]; simpl.
  - by repeat constructor.
  - case_decide; by constructor.
Qed.

Lemma wf_setitem df a v :
  wf_frame df -> length v = nrows df -> wf_frame (setitem df a v).
Proof.
  intros [Hn Hl] Hv. split; simpl.
  - by apply NoDup_store_col.
  - by apply Forall_store_col.
Qed.

Lemma wf_setitem_scalar df a c : wf_frame df -> wf_frame (setitem_scalar df a c).
Proof. intros. apply wf_setitem; [done|]. by rewrite length_replicate. Qed.

Lemma wf_frame_drop fs df df' :
  frame_drop fs df = Ok df' -> wf_frame df -> wf_frame df'.
Proof.
  unfold frame_drop. destruct (forallb _ _); [|done].
  intros [= <-] [Hn Hl]. split; simpl.
  - unfold columns. simpl. by apply NoDup_filter_names.
  - apply Forall_forall. intros c [_ Hc]%list_elem_of_filter.
    rewrite Forall_forall in Hl. by apply Hl.
Qed.

Lemma wf_rows_upto n df : wf_frame df -> wf_frame (rows_upto n df).
Proof.
  intros [Hn Hl]. unfold wf_frame, columns, rows_upto. cbn [nrows cols]. split.
  - by rewrite <- list_fmap_compose.
  - apply Forall_fmap. eapply Forall_impl; [exact Hl|].
    intros c Hc. simpl in Hc. cbn [snd compose]. rewrite length_take. lia.
Qed.

Lemma wf_rows_from n df : wf_frame df -> wf_frame (rows_from n df).
Proof.
  intros [Hn Hl]. unfold wf_frame, columns, rows_from. cbn [nrows cols]. split.
  - by rewrite <- list_fmap_compose.
  - apply Forall_fmap. eapply Forall_impl; [exact Hl|].
    intros c Hc. simpl in Hc. cbn [snd compose]. rewrite length_drop. lia.
Qed.

Lemma wf_imputer `{Externals} df :
  wf_frame df -> wf_frame (DataFrameImputer_fit_transform df).
Proof.
  intros [Hn Hl]. split; simpl.
  - unfold columns. simpl. by rewrite <- list_fmap_compose.
  - apply Forall_fmap. eapply Forall_impl; [exact Hl|].
    intros c Hc. simpl. unfold series_fillna. by rewrite length_map.
Qed.

Lemma wf_frame_append df1 df2 :
  wf_frame df1 -> wf_frame df2 -> wf_frame (frame_append df1 df2).
Proof.
  intros [Hn1 Hl1] [Hn2 Hl2]. split.
  - unfold columns, frame_append. simpl.
    rewrite fmap_app, <- !list_fmap_compose.
    change (fst ∘ (fun c : string * list cell =>
                     (c.1, replicate (nrows df1) (Num f64nan) ++ c.2)))
      with (@fst string (list cell)).
    apply NoDup_app. split; [exact Hn1|].
    split; [|by apply NoDup_filter_names].
    intros x Hx (c & -> & [Hc _]%list_elem_of_filter)%list_elem_of_fmap.
    by apply Hc.
  - unfold frame_append. simpl. apply Forall_app. split.
    + apply Forall_fmap. eapply Forall_impl; [exact Hl1|].
      intros c Hc. simpl. rewrite length_app, Hc. f_equal.
      destruct (lookup_col c.1 (cols df2)) as [v|] eqn:E; simpl.
      * exact (lookup_col_Forall _ _ _ _ Hl2 E).
      * by rewrite length_replicate.
    + apply Forall_fmap. apply Forall_forall.
      intros c [_ Hc]%list_elem_of_filter. simpl.
      rewrite Forall_forall in Hl2.
      rewrite length_app, length_replicate. f_equal. by apply Hl2.
Qed.

Lemma fit_transform_length (s s' : list cell) :
  fit_transform s = Ok s' -> length s' = length s.
Proof. intros Hf. by destruct (fit_transform_codes s s' Hf). Qed.

Lemma wf_encode_features features df df' :
  Feature.encode_features features df = Ok df' ->
  wf_frame df -> wf_frame df'.
Proof.
  revert df. induction features as [|f features IH];
    cbn [Feature.encode_features]; intros df.
  - by intros [= <-].
  - destruct (getitem df f) as [s|] eqn:Es; cbn [rbind]; [|done].
    destruct (fit_transform s) as [s'|] eqn:Ef; cbn [rbind]; [|done].
    intros Hr Hwf. apply (IH _ Hr). apply wf_setitem; [done|].
    rewrite (fit_transform_length _ _ Ef).
    by apply (wf_frame_length df f).
Qed.

(** Lengths of the intermediate results of a method. *)
Ltac length_facts :=
  repeat match goal with
    | E : getitem (setitem _ ?a _) ?a = Ok _ |- _ =>
        rewrite getitem_setitem_eq in E; injection E as <-
    | Hwf : wf_frame ?df, E : getitem ?df _ = Ok _ |- _ =>
        apply (wf_frame_length _ _ _ Hwf) in E
    | E : apply _ _ = Ok _ |- _ => apply apply_length in E
    | E : zip_apply _ _ _ = Ok _ |- _ => apply zip_apply_length in E
    end.

Ltac wf_steps :=
  repeat first
    [ assumption
    | apply wf_setitem_scalar
    | apply wf_rows_upto
    | apply wf_rows_from
    | apply wf_imputer
    | apply wf_frame_append
    | match goal with
      | E : frame_drop _ _ = Ok ?d |- wf_frame ?d =>
          apply (wf_frame_drop _ _ _ E)
      | E : Feature.encode_features _ _ = Ok ?d |- wf_frame ?d =>
          apply (wf_encode_features _ _ _ E)
      end
    | apply wf_setitem ].

(** X10.  Every method keeps the two frames well formed -- distinct
    column names, every column as long as the index -- whether it
    completes or raises. *)
Theorem frames_stay_well_formed `{Externals}
    (o : op) (st st' : Base) (r : result unit) :
  wf_frame (train st) -> wf_frame (test st) ->
  call o st = (r, st') ->
  wf_frame (train st') /\ wf_frame (test st').
Proof.
  intros Htr Hte Hr.
  destruct o; unfold_methods Hr; unfold_outliers Hr;
    try (destruct lower; destruct upper);
    run_M Hr; injection Hr as <- <-; cbn [train test];
    (split; wf_steps); length_facts;
    unfold assign_where, series_fillna, series_replace in *;
    cbn [nrows setitem] in *;
    rewrite ?length_map, ?length_zip_with in *; try lia.
Qed.

Lemma frames_stay_well_formed_witness :
  let st' := (@call sample_externals Impute people).2 in
  wf_frame (train people) /\ wf_frame (test people)
  /\ @call sample_externals Impute people = (Ok tt, st')
  /\ wf_frame (train st') /\ wf_frame (test st').
Proof.
  intros st'.
  assert (wf_frame (train people)) as Htr by (by apply (bool_decide_unpack _)).
  assert (wf_frame (test people)) as Hte by (by apply (bool_decide_unpack _)).
  assert (@call sample_externals Impute people = (Ok tt, st')) as Hr
    by (vm_compute; reflexivity).
  split; [exact Htr|]. split; [exact Hte|].
  split; [exact Hr|].
  exact (@frames_stay_well_formed sample_externals Impute people st' (Ok tt)
           Htr Hte Hr).
Defined.

(** ** [labels] that raises *)

(** X11.  When [labels] raises -- a feature that is no column, values the
    encoder cannot sort -- train is as it was, [data_n] has not been
    invoked, and test is left with the placeholder: a target column
    holding -1 in every row. *)
Theorem labels_failure_keeps_placeholder
    (features : list string) (st st' : Base) (e : exn) :
  Feature.labels features st = (Err e, st') ->
  train st' = train st
  /\ test st' = setitem_scalar (test st) (target st) (Int (-1))
  /\ getitem (test st') (target st)
     = Ok (replicate (nrows (test st)) (Int (-1)))
  /\ data_n_calls st' = data_n_calls st.
Proof.
  intros Hr. unfold Feature.labels in Hr. run_M Hr.
  - exfalso.
    destruct (frame_drop_present [target st]
                (rows_from (nrows (rows_upto (nrows (train st)) a)) a))
      as [d Hd]; [|congruence].
    rewrite colset_rows_from, (colset_encode_features _ _ _ E),
      colset_frame_append. unfold setitem_scalar.
    rewrite colset_setitem. set_solver.
  - injection Hr as <- <-. cbn [train test data_n_calls].
    unfold setitem_scalar. by rewrite getitem_setitem_eq.
Qed.

Lemma labels_failure_keeps_placeholder_witness :
  let st' := (Feature.labels ["cabin"]%string people).2 in
  Feature.labels ["cabin"]%string people = (Err KeyError, st')
  /\ train st' = train people
  /\ test st' = setitem_scalar (test people) (target people) (Int (-1))
  /\ getitem (test st') (target people)
     = Ok (replicate (nrows (test people)) (Int (-1)))
  /\ data_n_calls st' = data_n_calls people.
Proof.
  intros st'.
  assert (Feature.labels ["cabin"]%string people = (Err KeyError, st'))
    as Hr by (vm_compute; reflexivity).
  split; [exact Hr|].
  exact (labels_failure_keeps_placeholder _ people st' KeyError Hr).
Defined.

(** ** [concat] and [regex_extract] *)

Lemma zip_apply_total {A B C} (g : A -> B -> C) (l : list A) (k : list B) :
  zip_apply (fun x y => Ok (g x y)) l k = Ok (zip_with g l k).
Proof.
  revert k. induction l as [|x l IH]; intros [|y k]; simpl; try done.
  by rewrite IH.
Qed.

(** X12.  [concat] cannot fail on the values: when the two columns exist
    in train and in test it completes, whatever the cells hold; each new
    cell is the text of the first cell, the separator and the text of the
    second, and [data_n] is not invoked. *)
Theorem concat_completes `{Externals}
    (new a sep b : string) (st : Base) (ta tb sa sb : list cell) :
  getitem (train st) a = Ok ta -> getitem (train st) b = Ok tb ->
  getitem (test st) a = Ok sa -> getitem (test st) b = Ok sb ->
  exists st',
    Feature.concat new a sep b st = (Ok tt, st')
    /\ getitem (train st') new
       = Ok (zip_with (fun x y => Str (astype_str x ++ sep ++ astype_str y))
               ta tb)
    /\ getitem (test st') new
       = Ok (zip_with (fun x y => Str (astype_str x ++ sep ++ astype_str y))
               sa sb)
    /\ data_n_calls st' = data_n_calls st.
Proof.
  intros Ea Eb Fa Fb. eexists. split.
  - unfold Feature.concat, Feature.binary, Feature.concat_cells. step_goal.
    rewrite Ea, Eb. step_goal. rewrite zip_apply_total. step_goal.
    rewrite Fa, Fb. step_goal. rewrite zip_apply_total. reflexivity.
  - cbn [train test data_n_calls]. by rewrite !getitem_setitem_eq.
Qed.

Lemma concat_completes_witness :
  exists st',
    @Feature.concat sample_externals "who" "first" ", " "age" people
      = (Ok tt, st')
    /\ getitem (train st') "who"
       = Ok (zip_with (fun x y => Str (@astype_str sample_externals x ++ ", "
                                       ++ @astype_str sample_externals y))
               [Str "Jane"; Str "John"; Str "Ann"]%string
               [Int 31; Int 47; Int 25])
    /\ getitem (test st') "who"
       = Ok (zip_with (fun x y => Str (@astype_str sample_externals x ++ ", "
                                       ++ @astype_str sample_externals y))
               [Str "Max"; Str "Jane"]%string [Int 52; Int 0])
    /\ data_n_calls st' = data_n_calls people.
Proof.
  exact (@concat_completes sample_externals "who" "first" ", " "age" people
           _ _ _ _ eq_refl eq_refl eq_refl eq_refl).
Defined.

Lemma apply_Forall2 {A B} (f : A -> result B) (l : list A) (r : list B) :
  apply f l = Ok r -> Forall2 (fun x y => f x = Ok y) l r.
Proof.
  revert r. induction l as [|x l IH]; simpl; intros r.
  - intros [= <-]. constructor.
  - destruct (f x) as [y|] eqn:Ey; simpl; [|done].
    destruct (apply f l) as [ys|]; simpl; [|done].
    intros [= <-]. constructor; [done|]. by apply IH.
Qed.

(** X13.  After [regex_extract] completes, in train and in test alike,
    every cell of the source column was text, and the written column --
    [new], or the source column itself when [new] is absent or empty --
    holds the first group of the match for a text that matches and the
    empty text for one that does not; [data_n] is not invoked. *)
Theorem regex_extract_rows `{Externals}
    (a regex : string) (new : option string) (st st' : Base)
    (table : Base -> DataFrame) :
  table = train \/ table = test ->
  Feature.regex_extract a regex new st = (Ok tt, st') ->
  exists s s',
    getitem (table st) a = Ok s
    /\ getitem (table st') (Feature.new_or new a) = Ok s'
    /\ Forall2 (fun x y =>
         exists t, x = Str t
           /\ ((re_search regex t = Ok None /\ y = Str "")
               \/ re_search regex t = Ok (Some y))) s s'
    /\ data_n_calls st' = data_n_calls st.
Proof.
  intros Ht Hr. unfold Feature.regex_extract in Hr. run_M Hr.
  injection Hr as <-.
  assert (forall s s', apply (Feature._regex_text regex) s = Ok s' ->
            Forall2 (fun x y =>
              exists t, x = Str t
                /\ ((re_search regex t = Ok None /\ y = Str "")
                    \/ re_search regex t = Ok (Some y))) s s') as Hrows.
  { intros s s' Hs. apply apply_Forall2 in Hs.
    eapply Forall2_impl; [exact Hs|]. intros x y Hxy.
    unfold Feature._regex_text in Hxy. destruct x as [| |t| |]; try done.
    exists t. split; [done|].
    destruct (re_search regex t) as [[g|]|]; simpl in Hxy; try done.
    - injection Hxy as ->. by right.
    - injection Hxy as <-. by left. }
  destruct Ht as [-> | ->]; cbn [train test data_n_calls]; eexists _, _;
    (split; [done|]); rewrite getitem_setitem_eq; eauto.
Qed.

Lemma regex_extract_rows_witness :
  let st' :=
    (@Feature.regex_extract sample_externals "first" "(J.*)" (Some "")
       people).2 in
  @Feature.regex_extract sample_externals "first" "(J.*)" (Some "") people
    = (Ok tt, st')
  /\ getitem (train st') "first" = Ok [Str ""; Str ""; Str ""]
  /\ exists s s',
       getitem (train people) "first" = Ok s
       /\ getitem (train st') (Feature.new_or (Some "") "first") = Ok s'
       /\ Forall2 (fun x y =>
            exists t, x = Str t
              /\ ((@re_search sample_externals "(J.*)" t = Ok None
                   /\ y = Str "")
                  \/ @re_search sample_externals "(J.*)" t = Ok (Some y)))
            s s'
       /\ data_n_calls st' = data_n_calls people.
Proof.
  intros st'.
  assert (@Feature.regex_extract sample_externals "first" "(J.*)" (Some "")
            people = (Ok tt, st')) as Hr by (vm_compute; reflexivity).
  split; [exact Hr|]. split; [reflexivity|].
  exact (@regex_extract_rows sample_externals "first" "(J.*)" (Some "")
           people st' train (or_introl eq_refl) Hr).
Defined.

(** ** [divide] never stores an infinite value *)

Lemma zip_apply_Forall2 {A B C} (f : A -> B -> result C) l k r :
  zip_apply f l k = Ok r ->
  forall i z, r !! i = Some z ->
    exists x y, l !! i = Some x /\ k !! i = Some y /\ f x y = Ok z.
Proof.
  revert k r. induction l as [|x l IH]; intros [|y k] r; simpl;
    try (intros [= <-] i z Hi; by rewrite lookup_nil in Hi).
  destruct (f x y) as [z'|] eqn:Ez; simpl; [|done].
  destruct (zip_apply f l k) as [zs|] eqn:Ezs; simpl; [|done].
  intros [= <-] [|i] z; simpl.
  - intros [= <-]. eauto.
  - intros Hi. by apply (IH _ _ Ezs).
Qed.

(** X14.  After [divide] completes, every cell of the new column, in
    train and in test, is a float that is not infinite (it can be NaN). *)
Theorem divide_stores_no_infinity `{Externals}
    (new a b : string) (st st' : Base) (table : Base -> DataFrame) :
  table = train \/ table = test ->
  call (Divide new a b) st = (Ok tt, st') ->
  exists sn,
    getitem (table st') new = Ok sn
    /\ Forall (fun c => exists x, c = Num x /\ is_inf x = false) sn.
Proof.
  intros Ht Hr. unfold_methods Hr. run_M Hr. injection Hr as <-.
  rewrite getitem_setitem_eq in E5, E6.
  injection E5 as <-. injection E6 as <-.
  assert (forall l k r, zip_apply cell_div l k = Ok r ->
            Forall (fun c => exists x, c = Num x /\ is_inf x = false)
              (map replace_inf r)) as Hdiv.
  { intros l k r Hz. apply Forall_forall. intros c Hc.
    apply list_elem_of_fmap in Hc as (q & -> & Hq).
    apply list_elem_of_lookup in Hq as [i Hi].
    destruct (zip_apply_Forall2 _ _ _ _ Hz i q Hi) as (x & y & _ & _ & Hxy).
    unfold cell_div, float_op in Hxy.
    destruct (to_float x), (to_float y); try done.
    injection Hxy as <-. simpl.
    destruct (f64div f f0) eqn:Ed; simpl; eauto. }
  destruct Ht as [-> | ->]; cbn [train test]; rewrite getitem_setitem_eq;
    eexists; (split; [reflexivity|]); eauto.
Qed.

Lemma divide_stores_no_infinity_witness :
  let o := Divide "share" "age" "kids" in
  let st' := (@call sample_externals o people).2 in
  @call sample_externals o people = (Ok tt, st')
  /\ exists sn,
       getitem (train st') "share" = Ok sn
       /\ Forall (fun c => exists x, c = Num x /\ is_inf x = false) sn.
Proof.
  intros o st'.
  assert (@call sample_externals o people = (Ok tt, st')) as Hr
    by (vm_compute; reflexivity).
  split; [exact Hr|].
  exact (@divide_stores_no_infinity sample_externals "share" "age" "kids"
           people st' train (or_introl eq_refl) Hr).
Defined.

(** ** [outliers_fix] leaves nothing beyond the threshold *)

Lemma SFltb_irrefl (t : f64) : SFltb t t = false.
Proof.
  unfold SFltb. destruct (is_nan t) eqn:En.
  - by destruct t.
  - pose proof (SFeqb_refl t En) as He. unfold SFeqb in He.
    by destruct (SFcompare t t) as [[]|].
Qed.

Lemma clamp_inside (above : bool) (t : f64) (s : list cell) :
  Forall (fun c => outside above t c = false) (map (clamp above t) s).
Proof.
  apply Forall_forall. intros c (x & -> & _)%list_elem_of_fmap.
  unfold clamp. destruct (outside above t x) eqn:Ex; [|done].
  unfold outside. simpl. destruct above; apply SFltb_irrefl.
Qed.

Lemma count_outside_le above t (s : list cell) :
  (count_outside above t s <= length s)%nat.
Proof. unfold count_outside. apply length_filter. Qed.

(** X15.  After [outliers_fix] with one bound completes, for a percentile
    that is not zero, no value of the column in train lies strictly beyond
    the threshold -- the percentile of the column as it was -- and the
    number of rows reported as changed is at most the number of rows. *)
Theorem outliers_fix_bounds_column `{Externals}
    (above : bool) (a : string) (q : cell) (st st' : Base) :
  truthy (Some q) = true ->
  one_bound above a q st = (Ok tt, st') ->
  exists s t s' n,
    getitem (train st) a = Ok s
    /\ np_percentile s q = Ok t
    /\ getitem (train st') a = Ok s'
    /\ Forall (fun c => outside above t c = false) s'
    /\ stdout st' = stdout st ++ [mkReport n (percentage n (nrows (train st)))]
    /\ (n <= length s)%nat.
Proof.
  intros Hq Hr.
  assert (branch_effect above a q st st') as (s & t & Es & Et & Htr & _ & _
                                              & _ & Hout).
  { unfold one_bound, Feature.outliers_fix, Feature.when_truthy in Hr.
    destruct above; rewrite Hq in Hr; unfold bind, ret in Hr.
    - destruct (Feature.fix_upper a q st) as [[[]|] st1] eqn:Hu; [|done].
      injection Hr as <-. by apply fix_upper_effect.
    - by apply fix_lower_effect. }
  exists s, t, (map (clamp above t) s), (count_outside above t s).
  rewrite Htr, getitem_setitem_eq.
  repeat split; try done; [apply clamp_inside|apply count_outside_le].
Qed.

Lemma outliers_fix_bounds_column_witness :
  let st' := (@one_bound sample_externals false "age" (Int 50) people).2 in
  truthy (Some (Int 50)) = true
  /\ @one_bound sample_externals false "age" (Int 50) people = (Ok tt, st')
  /\ getitem (train st') "age" = Ok [Int 31; Int 47; Num (f64of_Z 31)]
  /\ exists s t s' n,
       getitem (train people) "age" = Ok s
       /\ @np_percentile sample_externals s (Int 50) = Ok t
       /\ getitem (train st') "age" = Ok s'
       /\ Forall (fun c => outside false t c = false) s'
       /\ stdout st'
          = stdout people ++ [mkReport n (percentage n (nrows (train people)))]
       /\ (n <= length s)%nat.
Proof.
  intros st'.
  assert (@one_bound sample_externals false "age" (Int 50) people
          = (Ok tt, st')) as Hr by (vm_compute; reflexivity).
  split; [reflexivity|]. split; [exact Hr|]. split; [reflexivity|].
  exact (@outliers_fix_bounds_column sample_externals false "age" (Int 50)
           people st' eq_refl Hr).
Defined.

(** ** [ordinal_to_numeric] does not roll back *)



(** ** [density] stores positive counts *)

(** X17.  After [density] completes on a column of train that has a value
    that is not missing, every cell of the new column, in train and in
    test, is an integer and at least 1. *)
Theorem density_values_positive
    (a : string) (st st' : Base) (s : list cell)
    (table : Base -> DataFrame) :
  table = train \/ table = test ->
  getitem (train st) a = Ok s ->
  Exists (fun x => isnull x = false) s ->
  Feature.density a st = (Ok tt, st') ->
  exists sn,
    getitem (table st') (a ++ "_density") = Ok sn
    /\ Forall (fun c => exists k, c = Int (Z.of_nat k) /\ (1 <= k)%nat) sn.
Proof.
  intros Ht Es Hex Hr. unfold Feature.density in Hr. run_M Hr.
  injection Hr as <-. injection Es as ->.
  unfold value_counts in E0. destruct (existsb is_list s); [done|].
  injection E0 as <-. apply apply_density_of in E1, E3. subst.
  assert (exists m, counts_min (count_values s) = Int (Z.of_nat m)
                    /\ (1 <= m)%nat) as (m & Hm & Hpos).
  { destruct (counts_min_spec s) as [[Hall _]|(m & Hm & _ & v & Hv & Hn & Hf)].
    - apply Exists_exists in Hex as (x & Hx & Hnx).
      rewrite Forall_forall in Hall. rewrite (Hall x Hx) in Hnx. done.
    - exists m. split; [done|].
      pose proof (frequency_pos v s Hv Hn). lia. }
  assert (forall l,
            Forall (fun c => exists k, c = Int (Z.of_nat k) /\ (1 <= k)%nat)
              (map (density_value (counts_min (count_values s)) s) l))
    as Hall.
  { intros l. apply Forall_forall. intros c (x & -> & _)%list_elem_of_fmap.
    unfold density_value. rewrite Hm.
    destruct (isnull x); simpl; [eauto|].
    destruct (bool_decide (frequency x s = O)) eqn:Ef; [eauto|].
    apply bool_decide_eq_false in Ef. eexists. split; [done|]. lia. }
  destruct Ht as [-> | ->]; cbn [train test]; rewrite getitem_setitem_eq;
    eexists; (split; [reflexivity|]); apply Hall.
Qed.

Lemma density_values_positive_witness :
  let st' := (Feature.density "cabin" cabins).2 in
  Feature.density "cabin" cabins = (Ok tt, st')
  /\ getitem (test st') "cabin_density" = Ok [Int 3; Int 2; Int 2]
  /\ exists sn,
       getitem (test st') ("cabin" ++ "_density") = Ok sn
       /\ Forall (fun c => exists k, c = Int (Z.of_nat k) /\ (1 <= k)%nat) sn.
Proof.
  intros st'.
  assert (Feature.density "cabin" cabins = (Ok tt, st')) as Hr
    by (vm_compute; reflexivity).
  split; [exact Hr|]. split; [reflexivity|].
  apply (density_values_positive "cabin" cabins st' _ test
           (or_intror eq_refl) eq_refl); [|exact Hr].
  apply Exists_cons_hd. reflexivity.
Defined.

(** ** [sum], [diff], [product] on integers *)

Lemma wrap64_range (z : Z) : - 2 ^ 63 <= wrap64 z < 2 ^ 63.
Proof.
  unfold wrap64.
  pose proof (Z.mod_pos_bound (z + 2 ^ 63) (2 ^ 64) ltac:(lia)). lia.
Qed.

Lemma zip_apply_ints (f : cell -> cell -> result cell) (g : Z -> Z -> Z)
    (xs ys : list Z) :
  (forall x y, f (Int x) (Int y) = Ok (Int (wrap64 (g x y)))) ->
  zip_apply f (Int <$> xs) (Int <$> ys)
  = Ok (Int <$> zip_with (fun x y => wrap64 (g x y)) xs ys).
Proof.
  intros Hf. revert ys. induction xs as [|x xs IH]; intros [|y ys]; try done.
  simpl. rewrite Hf. simpl. by rewrite IH.
Qed.

(** X18.  On columns of integers [sum], [diff] and [product] do not fail
    and do not leave the 64-bit range: each new cell is the sum, the
    difference or the product of the two cells of its row, wrapped around
    into the range, and [data_n] is invoked once. *)
Theorem integer_arithmetic_wraps
    (k : arith) (new a b : string) (st : Base)
    (ta tb sa sb : list Z) :
  getitem (train st) a = Ok (Int <$> ta) ->
  getitem (train st) b = Ok (Int <$> tb) ->
  getitem (test st) a = Ok (Int <$> sa) ->
  getitem (test st) b = Ok (Int <$> sb) ->
  exists st',
    arith_call k new a b st = (Ok tt, st')
    /\ getitem (train st') new
       = Ok (Int <$> zip_with (fun x y => wrap64 (arith_Z k x y)) ta tb)
    /\ getitem (test st') new
       = Ok (Int <$> zip_with (fun x y => wrap64 (arith_Z k x y)) sa sb)
    /\ (forall x y, is_int64 (Int (wrap64 (arith_Z k x y))) = true)
    /\ data_n_calls st' = S (data_n_calls st).
Proof.
  intros Ea Eb Fa Fb.
  assert (forall x y, is_int64 (Int (wrap64 (arith_Z k x y))) = true) as Hr.
  { intros x y. unfold is_int64. apply andb_true_iff.
    split; [apply Z.leb_le|apply Z.ltb_lt]; apply wrap64_range. }
  destruct k; eexists;
    (split;
     [unfold arith_call, Feature.sum, Feature.diff, Feature.product,
        Feature.binary; step_goal; rewrite Ea, Eb; step_goal;
      first [rewrite (zip_apply_ints cell_add Z.add) by done
            |rewrite (zip_apply_ints cell_sub Z.sub) by done
            |rewrite (zip_apply_ints cell_mul Z.mul) by done];
      step_goal; rewrite Fa, Fb; step_goal;
      first [rewrite (zip_apply_ints cell_add Z.add) by done
            |rewrite (zip_apply_ints cell_sub Z.sub) by done
            |rewrite (zip_apply_ints cell_mul Z.mul) by done];
      step_goal; reflexivity
     |cbn [train test data_n_calls]; rewrite !getitem_setitem_eq;
      repeat split; done]).
Qed.

Lemma integer_arithmetic_wraps_witness :
  exists st',
    arith_call Times "big" "age" "age"
      (mkBase (mkFrame 1 [("age", [Int (2 ^ 62)])]%string)
              (mkFrame 1 [("age", [Int 3])]%string) "y" 0 [])
    = (Ok tt, st')
    /\ getitem (train st') "big"
       = Ok (Int <$> zip_with (fun x y => wrap64 (arith_Z Times x y))
                       [2 ^ 62] [2 ^ 62])
    /\ getitem (test st') "big"
       = Ok (Int <$> zip_with (fun x y => wrap64 (arith_Z Times x y)) [3] [3])
    /\ (forall x y, is_int64 (Int (wrap64 (arith_Z Times x y))) = true)
    /\ data_n_calls st' = 1%nat.
Proof.
  exact (integer_arithmetic_wraps Times "big" "age" "age"
           (mkBase (mkFrame 1 [("age", [Int (2 ^ 62)])]%string)
                   (mkFrame 1 [("age", [Int 3])]%string) "y" 0 [])
           [2 ^ 62] [2 ^ 62] [3] [3] eq_refl eq_refl eq_refl eq_refl).
Defined.

(** ** [list_len] *)

(** X19.  After [list_len] completes, in train and in test alike, every
    cell of the source column was a text or a list, and the new cell holds
    its length: the number of characters of the text, the number of items
    of the list. *)
Theorem list_len_rows
    (new a : string) (st st' : Base) (table : Base -> DataFrame) :
  table = train \/ table = test ->
  Feature.list_len new a st = (Ok tt, st') ->
  exists s s',
    getitem (table st) a = Ok s
    /\ getitem (table st') new = Ok s'
    /\ Forall2 (fun x y =>
         (exists t, x = Str t /\ y = Int (Z.of_nat (String.length t)))
         \/ (exists l, x = Lst l /\ y = Int (Z.of_nat (length l)))) s s'.
Proof.
  intros Ht Hr. unfold Feature.list_len in Hr. run_M Hr. injection Hr as <-.
  assert (forall s s', apply py_len s = Ok s' ->
            Forall2 (fun x y =>
              (exists t, x = Str t /\ y = Int (Z.of_nat (String.length t)))
              \/ (exists l, x = Lst l /\ y = Int (Z.of_nat (length l))))
              s s') as Hrows.
  { intros s s' Hs. apply apply_Forall2 in Hs.
    eapply Forall2_impl; [exact Hs|]. intros x y Hxy.
    destruct x; try done; injection Hxy as <-; eauto. }
  destruct Ht as [-> | ->]; cbn [train test]; eexists _, _;
    (split; [done|]); rewrite getitem_setitem_eq; eauto.
Qed.

Lemma list_len_rows_witness :
  let st' := (Feature.list_len "n" "first" people).2 in
  Feature.list_len "n" "first" people = (Ok tt, st')
  /\ getitem (train st') "n" = Ok [Int 4; Int 4; Int 3]
  /\ exists s s',
       getitem (train people) "first" = Ok s
       /\ getitem (train st') "n" = Ok s'
       /\ Forall2 (fun x y =>
            (exists t, x = Str t /\ y = Int (Z.of_nat (String.length t)))
            \/ (exists l, x = Lst l /\ y = Int (Z.of_nat (length l)))) s s'.
Proof.
  intros st'.
  assert (Feature.list_len "n" "first" people = (Ok tt, st')) as Hr
    by (vm_compute; reflexivity).
  split; [exact Hr|]. split; [reflexivity|].
  exact (list_len_rows "n" "first" people st' train (or_introl eq_refl) Hr).
Defined.

(** ** A method changes only the column it writes *)

(** X20.  A method that writes one column -- every method but [drop],
    [impute] and [labels] -- leaves every other column of train and of
    test as it was, whether it completes or raises. *)
Theorem other_columns_untouched `{Externals}
    (o : op) (c : string) (st st' : Base) (r : result unit) :
  written o = Some c ->
  call o st = (r, st') ->
  forall b, b <> c ->
    getitem (train st') b = getitem (train st) b
    /\ getitem (test st') b = getitem (test st) b.
Proof.
  intros Hw Hr b Hb.
  destruct o; try discriminate Hw; injection Hw as <-;
    unfold_methods Hr; unfold_outliers Hr;
    try (destruct lower; destruct upper);
    run_M Hr; injection Hr as <- <-; cbn [train test];
    by rewrite ?getitem_setitem_ne.
Qed.

Lemma other_columns_untouched_witness :
  let o := Round "age" "age" 0 in
  let st' := (@call sample_externals o people).2 in
  written o = Some "age"%string
  /\ @call sample_externals o people = (Ok tt, st')
  /\ forall b, b <> "age"%string ->
       getitem (train st') b = getitem (train people) b
       /\ getitem (test st') b = getitem (test people) b.
Proof.
  intros o st'.
  assert (@call sample_externals o people = (Ok tt, st')) as Hr
    by (vm_compute; reflexivity).
  split; [reflexivity|]. split; [exact Hr|].
  exact (@other_columns_untouched sample_externals o "age" people st' (Ok tt)
           eq_refl Hr).
Defined.
